(** * redgreen-tdd: the countdown state machine and the session store

    A shallow embedding of [redgreen/core/timer.py] and
    [redgreen/core/session.py].

    Modelling choices.
    - Python floats are idealised as rationals ([Q]): arithmetic is exact and
      there is no NaN or infinity.  Comparisons of times are stated with
      [==] ([Qeq]).  The product [minutes * 60.0] is exact in binary64 only
      for the integers of [exact_minutes]; statements that range over the
      minutes are made on that range.  What the code does beyond it (a rounded
      product, an infinite one, [OverflowError]) is computed bit for bit by
      the companion [session64], which runs the same methods on binary64
      floats.
    - [time.monotonic()] and [time.time()] are oracles: the world holds a
      function from the index of the call to the reading it returns, and every
      call advances the index.  Nothing is assumed about consecutive readings
      unless a lemma says so.
    - A Python method is a computation over the object and the world that
      either returns a value or raises; mutations done before a [raise] stay.
    - The record file is [None] when absent, and otherwise the JSON object it
      holds, each key possibly missing (the loader reads with [dict.get]). *)

From Stdlib Require Import ZArith QArith Qround Qminmax String Ascii List Bool Lia.
From Stdlib Require Import DecimalString SpecFloat.
Import ListNotations.

Local Open Scope string_scope.

(** ** Python values and formatting *)

(** [max(a, b)] of two Python numbers: [b] only when it is strictly greater. *)
Definition Qltb (a b : Q) : bool := negb (Qle_bool b a).

Definition py_max (a b : Q) : Q := if Qltb a b then b else a.

(** [int(x)] truncates towards zero. *)
Definition py_int (x : Q) : Z :=
  if Qle_bool 0 x then Qfloor x else Qceiling x.

(** [str(n)] / [f"{n}"] of an integer. *)
Definition str_int (n : Z) : string := NilZero.string_of_int (Z.to_int n).

(** [f"{n:02d}"]: zero padded to width two, the sign counting as a column. *)
Definition fmt_02d (n : Z) : string :=
  if ((0 <=? n) && (n <? 10))%Z then "0" ++ str_int n else str_int n.

(** ** Exceptions and the method monad *)

Inductive Exn : Type :=
| TypeError (msg : string)
| ValueError (msg : string)
| OverflowError (msg : string)
| InvalidStateError (msg : string).

Inductive Outcome (A : Type) : Type :=
| Return (a : A)
| Raise (e : Exn).
Arguments Return {A} a.
Arguments Raise {A} e.

Definition Py (S A : Type) : Type := S -> Outcome A * S.

Definition ret {S A} (a : A) : Py S A := fun s => (Return a, s).

Definition raise {S A} (e : Exn) : Py S A := fun s => (Raise e, s).

Definition bind {S A B} (c : Py S A) (k : A -> Py S B) : Py S B :=
  fun s => match c s with
           | (Return a, s') => k a s'
           | (Raise e, s') => (Raise e, s')
           end.

Definition gets {S A} (f : S -> A) : Py S A := fun s => (Return (f s), s).

Definition modify {S} (f : S -> S) : Py S unit := fun s => (Return tt, f s).

Declare Scope py_scope.
Delimit Scope py_scope with py.
Notation "x <- c ;; k" := (bind c (fun x => k))
  (at level 61, c at next level, right associativity) : py_scope.
Notation "c ;; k" := (bind c (fun _ => k))
  (at level 61, right associativity) : py_scope.
Local Open Scope py_scope.

Definition raised {A} (o : Outcome A) : option Exn :=
  match o with Return _ => None | Raise e => Some e end.

Definition returned {A} (o : Outcome A) : option A :=
  match o with Return a => Some a | Raise _ => None end.

(** ** The world: two clocks and the record file *)

(** The JSON object of [session.json]; [None] for a key that is missing. *)
Record JsonRecord : Type := mkJson {
  j_state : option string;
  j_duration_minutes : option Z;
  j_remaining_seconds : option Q;
  j_started_at : option Q
}.

Record World : Type := mkWorld {
  monotonic_src : nat -> Q;   (* reading returned by the n-th [time.monotonic()] *)
  monotonic_calls : nat;
  time_src : nat -> Q;        (* reading returned by the n-th [time.time()] *)
  time_calls : nat;
  file : option JsonRecord    (* <config_dir>/session.json *)
}.

Definition read_monotonic (w : World) : Q * World :=
  (monotonic_src w (monotonic_calls w),
   mkWorld (monotonic_src w) (S (monotonic_calls w)) (time_src w) (time_calls w) (file w)).

Definition read_time (w : World) : Q * World :=
  (time_src w (time_calls w),
   mkWorld (monotonic_src w) (monotonic_calls w) (time_src w) (S (time_calls w)) (file w)).

Definition write_file (d : JsonRecord) (w : World) : World :=
  mkWorld (monotonic_src w) (monotonic_calls w) (time_src w) (time_calls w) (Some d).

(** An object together with the world it runs in. *)
Record Proc (O : Type) : Type := mkProc { self : O; world : World }.
Arguments mkProc {O} self world.
Arguments self {O} p.
Arguments world {O} p.

Definition time_monotonic {O} : Py (Proc O) Q :=
  fun p => let (t, w) := read_monotonic (world p) in (Return t, mkProc (self p) w).

Definition time_time {O} : Py (Proc O) Q :=
  fun p => let (t, w) := read_time (world p) in (Return t, mkProc (self p) w).

Definition get_self {O A} (f : O -> A) : Py (Proc O) A := gets (fun p => f (self p)).

Definition set_self {O} (f : O -> O) : Py (Proc O) unit :=
  modify (fun p => mkProc (f (self p)) (world p)).

(** ** timer.py *)

Inductive TimerState : Type := IDLE | RUNNING | PAUSED | EXPIRED.

Definition value (s : TimerState) : string :=
  match s with
  | IDLE => "idle"
  | RUNNING => "running"
  | PAUSED => "paused"
  | EXPIRED => "expired"
  end.

Definition TimerState_eqb (a b : TimerState) : bool :=
  match a, b with
  | IDLE, IDLE | RUNNING, RUNNING | PAUSED, PAUSED | EXPIRED, EXPIRED => true
  | _, _ => false
  end.

(** Membership in a [frozenset] of states. *)
Definition state_in (s : TimerState) (valid : list TimerState) : bool :=
  existsb (TimerState_eqb s) valid.

(** What a caller may pass as [duration_minutes]: an [int] or a [float]. *)
Inductive PyNum : Type := PyInt (n : Z) | PyFloat (x : Q).

Module timer.

Definition _VALID_START_STATES : list TimerState := [IDLE; EXPIRED].
Definition _VALID_RESTART_STATES : list TimerState := [RUNNING; PAUSED; EXPIRED].

Definition _MIN_DURATION : Z := 1.
Definition _MAX_DURATION : Z := 60.

Record Timer : Type := mkTimer {
  _state : TimerState;
  _duration_seconds : Q;
  _original_duration_minutes : Z;
  _start_time : Q;
  _remaining_at_pause : Q
}.

Definition __init__ : Timer := mkTimer IDLE 0 0 0 0.

Definition set_state (v : TimerState) (t : Timer) : Timer :=
  mkTimer v (_duration_seconds t) (_original_duration_minutes t) (_start_time t)
    (_remaining_at_pause t).
Definition set_duration_seconds (v : Q) (t : Timer) : Timer :=
  mkTimer (_state t) v (_original_duration_minutes t) (_start_time t)
    (_remaining_at_pause t).
Definition set_original_duration_minutes (v : Z) (t : Timer) : Timer :=
  mkTimer (_state t) (_duration_seconds t) v (_start_time t) (_remaining_at_pause t).
Definition set_start_time (v : Q) (t : Timer) : Timer :=
  mkTimer (_state t) (_duration_seconds t) (_original_duration_minutes t) v
    (_remaining_at_pause t).
Definition set_remaining_at_pause (v : Q) (t : Timer) : Timer :=
  mkTimer (_state t) (_duration_seconds t) (_original_duration_minutes t)
    (_start_time t) v.

Definition M (A : Type) : Type := Py (Proc Timer) A.

Definition _require_state (method : string) (valid : list TimerState) : M unit :=
  s <- get_self _state ;;
  if negb (state_in s valid)
  then raise (InvalidStateError (method ++ "() is not valid from " ++ value s ++ " state"))
  else ret tt.

Definition _begin_running : M unit :=
  now <- time_monotonic ;;
  set_self (set_start_time now) ;;
  set_self (set_state RUNNING).

Definition get_remaining : M Q :=
  s <- get_self _state ;;
  match s with
  | RUNNING =>
      d <- get_self _duration_seconds ;;
      now <- time_monotonic ;;
      st <- get_self _start_time ;;
      let remaining := d - (now - st) in
      if Qle_bool remaining 0
      then set_self (set_remaining_at_pause 0) ;;
           set_self (set_state EXPIRED) ;;
           ret 0%Q
      else ret remaining
  | PAUSED => get_self _remaining_at_pause
  | _ => ret 0%Q
  end.

Definition start (duration_minutes : PyNum) : M unit :=
  match duration_minutes with
  | PyFloat _ =>
      raise (TypeError "duration_minutes must be an integer, got float")
  | PyInt n =>
      if negb ((_MIN_DURATION <=? n) && (n <=? _MAX_DURATION))%Z
      then raise (ValueError ("duration_minutes must be between "
                              ++ str_int _MIN_DURATION ++ " and "
                              ++ str_int _MAX_DURATION ++ ", got " ++ str_int n))
      else
        _require_state "start" _VALID_START_STATES ;;
        set_self (set_original_duration_minutes n) ;;
        set_self (set_duration_seconds (inject_Z n * 60)) ;;
        _begin_running
  end.

Definition pause : M unit :=
  get_remaining ;;
  _require_state "pause" [RUNNING] ;;
  now <- time_monotonic ;;
  st <- get_self _start_time ;;
  let elapsed := now - st in
  d <- get_self _duration_seconds ;;
  set_self (set_remaining_at_pause (py_max (d - elapsed) 0)) ;;
  set_self (set_state PAUSED).

Definition resume : M unit :=
  _require_state "resume" [PAUSED] ;;
  r <- get_self _remaining_at_pause ;;
  set_self (set_duration_seconds r) ;;
  _begin_running.

Definition restart : M unit :=
  _require_state "restart" _VALID_RESTART_STATES ;;
  o <- get_self _original_duration_minutes ;;
  set_self (set_duration_seconds (inject_Z o * 60)) ;;
  _begin_running.

Definition get_state : M TimerState := get_self _state.

Definition get_original_duration : M Z := get_self _original_duration_minutes.

End timer.

(** ** session.py *)

Module session.

Definition _ACTIVE_STATES : list TimerState := [RUNNING; PAUSED].

(** [int(seconds)] is total on rationals; on an infinity or NaN the code
    raises, see [session64._format_remaining]. *)
Definition _format_remaining (seconds : Q) : string :=
  let total := py_int seconds in
  str_int (total / 60) ++ ":" ++ fmt_02d (total mod 60).

Record Session : Type := mkSession {
  _state : TimerState;
  _duration_minutes : Z;
  _remaining_seconds : Q;
  _started_at : Q;        (* wall-clock (time.time) *)
  _monotonic_ref : Q      (* monotonic baseline for running sessions *)
}.

Definition set_state (v : TimerState) (s : Session) : Session :=
  mkSession v (_duration_minutes s) (_remaining_seconds s) (_started_at s)
    (_monotonic_ref s).
Definition set_duration_minutes (v : Z) (s : Session) : Session :=
  mkSession (_state s) v (_remaining_seconds s) (_started_at s) (_monotonic_ref s).
Definition set_remaining_seconds (v : Q) (s : Session) : Session :=
  mkSession (_state s) (_duration_minutes s) v (_started_at s) (_monotonic_ref s).
Definition set_started_at (v : Q) (s : Session) : Session :=
  mkSession (_state s) (_duration_minutes s) (_remaining_seconds s) v
    (_monotonic_ref s).
Definition set_monotonic_ref (v : Q) (s : Session) : Session :=
  mkSession (_state s) (_duration_minutes s) (_remaining_seconds s) (_started_at s) v.

Definition M (A : Type) : Type := Py (Proc Session) A.

(** *** Persistence *)

(** The [data] dictionary that [_save] dumps. *)
Definition snapshot (s : Session) : JsonRecord :=
  mkJson (Some (value (_state s))) (Some (_duration_minutes s))
    (Some (_remaining_seconds s)) (Some (_started_at s)).

Definition _save : M unit :=
  modify (fun p => mkProc (self p) (write_file (snapshot (self p)) (world p))).

Definition dict_get {A} (field : option A) (default : A) : A :=
  match field with Some v => v | None => default end.

Definition _load : M unit :=
  f <- gets (fun p => file (world p)) ;;
  match f with
  | None => ret tt
  | Some data =>
      set_self (set_duration_minutes (dict_get (j_duration_minutes data) 0%Z)) ;;
      set_self (set_remaining_seconds (dict_get (j_remaining_seconds data) 0%Q)) ;;
      set_self (set_started_at (dict_get (j_started_at data) 0%Q)) ;;
      let raw_state := dict_get (j_state data) "idle" in
      if String.eqb raw_state "running" then
        now <- time_time ;;
        sa <- get_self _started_at ;;
        let elapsed := now - sa in
        rs <- get_self _remaining_seconds ;;
        let adjusted := rs - elapsed in
        if Qle_bool adjusted 0
        then set_self (set_state EXPIRED) ;;
             set_self (set_remaining_seconds 0)
        else set_self (set_state RUNNING) ;;
             set_self (set_remaining_seconds adjusted) ;;
             m <- time_monotonic ;;
             set_self (set_monotonic_ref m)
      else if String.eqb raw_state "paused" then set_self (set_state PAUSED)
      else if String.eqb raw_state "expired" then set_self (set_state EXPIRED)
      else ret tt
  end.

(** [Session(config_dir)]: the fresh object after [__init__] has run [_load]. *)
Definition __init__ (w : World) : Proc Session :=
  snd (_load (mkProc (mkSession IDLE 0 0 0 0) w)).

(** *** Private helpers *)

Definition _get_remaining : M Q :=
  s <- get_self _state ;;
  match s with
  | RUNNING =>
      now <- time_monotonic ;;
      ref <- get_self _monotonic_ref ;;
      let elapsed := now - ref in
      rs <- get_self _remaining_seconds ;;
      ret (py_max (rs - elapsed) 0)
  | _ => get_self _remaining_seconds
  end.

Definition _effective_state : M TimerState :=
  s <- get_self _state ;;
  (match s with
   | RUNNING =>
       r <- _get_remaining ;;
       if Qle_bool r 0 then set_self (set_state EXPIRED) else ret tt
   | _ => ret tt
   end) ;;
  get_self _state.

Definition _begin_running : M unit :=
  t <- time_time ;;
  set_self (set_started_at t) ;;
  m <- time_monotonic ;;
  set_self (set_monotonic_ref m) ;;
  set_self (set_state RUNNING) ;;
  _save.

(** *** Public API *)

(** [duration_minutes * 60.0] is the exact product here; it is the code's
    value on [exact_minutes], see [session64.start] beyond. *)
Definition start (duration_minutes : Z) : M string :=
  e <- _effective_state ;;
  if state_in e _ACTIVE_STATES
  then s <- get_self _state ;;
       raise (InvalidStateError ("start() is not valid from " ++ value s ++ " state"))
  else
    set_self (set_duration_minutes duration_minutes) ;;
    set_self (set_remaining_seconds (inject_Z duration_minutes * 60)) ;;
    _begin_running ;;
    ret ("Session started: " ++ str_int duration_minutes ++ " minutes").

Definition status : M (string * Z) :=
  state <- _effective_state ;;
  match state with
  | RUNNING =>
      r <- _get_remaining ;;
      ret (_format_remaining r ++ " remaining", 0%Z)
  | PAUSED =>
      rs <- get_self _remaining_seconds ;;
      ret (_format_remaining rs ++ " remaining (paused)", 0%Z)
  | EXPIRED => ret ("Session expired", 1%Z)
  | IDLE => ret ("No active session", 1%Z)
  end.

Definition pause : M string :=
  remaining <- _get_remaining ;;
  set_self (set_remaining_seconds remaining) ;;
  set_self (set_state PAUSED) ;;
  t <- time_time ;;
  set_self (set_started_at t) ;;
  _save ;;
  ret ("Session paused at " ++ _format_remaining remaining ++ " remaining").

Definition resume : M string :=
  _begin_running ;;
  rs <- get_self _remaining_seconds ;;
  ret ("Session resumed: " ++ _format_remaining rs ++ " remaining").

(** The same product as in [start], see [session64.restart]. *)
Definition restart : M string :=
  d <- get_self _duration_minutes ;;
  set_self (set_remaining_seconds (inject_Z d * 60)) ;;
  _begin_running ;;
  d' <- get_self _duration_minutes ;;
  ret ("Session restarted: " ++ str_int d' ++ " minutes").

End session.

(** ** File operations of [_save] and [_load], one at a time

    The model above runs [_save] and [_load] as single steps.  Here each is
    the sequence of file operations the source performs, so that a saving
    process and a loading process can be interleaved.  [flock] is advisory:
    it only blocks another [flock]; [open(path, "w")] creates or truncates the
    file when it is called; the text written by [json.dump] stays in the file
    object's buffer until [close], which flushes it and drops the lock. *)

Module locking.

Inductive FileContent : Type :=
| NoFile                        (* the path does not exist *)
| EmptyFile                     (* zero bytes: not a JSON document *)
| Written (d : JsonRecord).     (* one complete record *)

(** The operation a process performs next. *)
Inductive SavePc : Type := SaveMkdir | SaveOpen | SaveFlock | SaveDump | SaveClose | SaveDone.
Inductive LoadPc : Type := LoadExists | LoadOpen | LoadFlock | LoadRead | LoadClose | LoadDone.

Record Sys : Type := mkSys {
  content : FileContent;
  ex_held : bool;               (* the saving process holds LOCK_EX *)
  sh_held : bool;               (* the loading process holds LOCK_SH *)
  save_pc : SavePc;
  buffered : option JsonRecord; (* dumped, not yet flushed *)
  load_pc : LoadPc;
  loaded : option FileContent   (* what [json.load] was given to parse *)
}.

(** [Session._save], writing [data]. *)
Definition save_step (data : JsonRecord) (s : Sys) : option Sys :=
  match save_pc s with
  | SaveMkdir =>                (* self._config_dir.mkdir(parents=True, exist_ok=True) *)
      Some (mkSys (content s) (ex_held s) (sh_held s) SaveOpen (buffered s)
              (load_pc s) (loaded s))
  | SaveOpen =>                 (* open(self._config_dir / _STATE_FILE, "w") *)
      Some (mkSys EmptyFile (ex_held s) (sh_held s) SaveFlock (buffered s)
              (load_pc s) (loaded s))
  | SaveFlock =>                (* fcntl.flock(f, fcntl.LOCK_EX) *)
      if sh_held s then None
      else Some (mkSys (content s) true (sh_held s) SaveDump (buffered s)
                   (load_pc s) (loaded s))
  | SaveDump =>                 (* json.dump(data, f) *)
      Some (mkSys (content s) (ex_held s) (sh_held s) SaveClose (Some data)
              (load_pc s) (loaded s))
  | SaveClose =>                (* leaving the [with] block *)
      Some (mkSys (match buffered s with Some d => Written d | None => content s end)
              false (sh_held s) SaveDone None (load_pc s) (loaded s))
  | SaveDone => None
  end.

(** [Session._load], up to the parsing of the file. *)
Definition load_step (s : Sys) : option Sys :=
  match load_pc s with
  | LoadExists =>               (* if not path.exists(): return *)
      Some (mkSys (content s) (ex_held s) (sh_held s) (save_pc s) (buffered s)
              (match content s with NoFile => LoadDone | _ => LoadOpen end) (loaded s))
  | LoadOpen =>                 (* open(path) *)
      Some (mkSys (content s) (ex_held s) (sh_held s) (save_pc s) (buffered s)
              LoadFlock (loaded s))
  | LoadFlock =>                (* fcntl.flock(f, fcntl.LOCK_SH) *)
      if ex_held s then None
      else Some (mkSys (content s) (ex_held s) true (save_pc s) (buffered s)
                   LoadRead (loaded s))
  | LoadRead =>                 (* data = json.load(f) *)
      Some (mkSys (content s) (ex_held s) (sh_held s) (save_pc s) (buffered s)
              LoadClose (Some (content s)))
  | LoadClose =>                (* leaving the [with] block *)
      Some (mkSys (content s) (ex_held s) false (save_pc s) (buffered s)
              LoadDone (loaded s))
  | LoadDone => None
  end.

Inductive Who : Type := Saver | Loader.

(** Run a schedule; [None] when the scheduled process cannot move. *)
Fixpoint run (data : JsonRecord) (sched : list Who) (s : Sys) : option Sys :=
  match sched with
  | [] => Some s
  | Saver :: rest =>
      match save_step data s with Some s' => run data rest s' | None => None end
  | Loader :: rest =>
      match load_step s with Some s' => run data rest s' | None => None end
  end.

(** Both processes about to begin, the file holding the record [old]. *)
Definition init (old : JsonRecord) : Sys :=
  mkSys (Written old) false false SaveMkdir None LoadExists None.

End locking.

(** ** Scenarios and observations used in the statements *)

(** A clock that returns [a] for its first [k] readings and [b] afterwards. *)
Definition clock_then (k : nat) (a b : Q) : nat -> Q :=
  fun n => if Nat.ltb n k then a else b.

Definition fresh_world (mono wall : nat -> Q) : World :=
  mkWorld mono 0 wall 0 None.

(** The [InvalidStateError] raised by a guard. *)
Definition invalid (method : string) (st : TimerState) : Exn :=
  InvalidStateError (method ++ "() is not valid from " ++ value st ++ " state").

(** A fresh store: no record file, both clocks constant. *)
Definition idle_store : Proc session.Session :=
  session.__init__ (fresh_world (fun _ => 0) (fun _ => 1000000)).

(** A store reloaded from a record that says [expired]. *)
Definition expired_store : Proc session.Session :=
  session.__init__
    (mkWorld (fun _ => 0) 0 (fun _ => 1000000) 0
       (Some (mkJson (Some "expired") (Some 10%Z) (Some 0) (Some 999000)))).

(** [test_load_running_session] and [test_load_expired_session_from_disk]. *)
Definition running_record (r : Q) : JsonRecord :=
  mkJson (Some "running") (Some 10%Z) (Some r) (Some 1000000).

Definition world_with (d : JsonRecord) (wall mono : Q) : World :=
  mkWorld (fun _ => mono) 0 (fun _ => wall) 0 (Some d).

(** The session of [test_expired_status]: started for one minute at monotonic
    reading 0, every later reading being 61. *)
Definition overdue_store : Proc session.Session :=
  snd (session.start 1
         (session.__init__ (fresh_world (clock_then 1 0 61) (fun _ => 1000000)))).

(** A running record reloaded 120 seconds after it was saved with 60 seconds
    left (the record of [test_load_expired_session_from_disk]). *)
Definition reloaded_overdue_store : Proc session.Session :=
  session.__init__ (world_with (running_record 60) 1000120 5000).

(** The remaining time an object reports when the monotonic clock reads [t]. *)
Definition at_reading (t : Q) : World := mkWorld (fun _ => t) 0 (fun _ => 0) 0 None.

Definition timer_remaining_at (tm : timer.Timer) (t : Q) : Outcome Q :=
  fst (timer.get_remaining (mkProc tm (at_reading t))).

Definition session_remaining_at (s : session.Session) (t : Q) : Outcome Q :=
  fst (session._get_remaining (mkProc s (at_reading t))).

Definition next_monotonic (w : World) : Q := monotonic_src w (monotonic_calls w).

(** The scenario of the tests: ten minutes started at monotonic reading 0,
    paused at 146, resumed at 200. *)
Definition running_timer : Proc timer.Timer :=
  snd (timer.start (PyInt 10)
         (mkProc timer.__init__ (fresh_world (clock_then 1 0 146) (fun _ => 0)))).

Definition running_store : Proc session.Session :=
  snd (session.start 10
         (session.__init__ (fresh_world (clock_then 1 0 146) (fun _ => 1000000)))).

Definition later_world (f : option JsonRecord) : World :=
  mkWorld (fun _ => 200) 0 (fun _ => 1000800) 0 f.

Definition old_record : JsonRecord :=
  mkJson (Some "running") (Some 10%Z) (Some 600) (Some 1000000).

Definition new_record : JsonRecord :=
  mkJson (Some "paused") (Some 10%Z) (Some 454) (Some 1000146).

(** ** Whole minutes that binary64 multiplies exactly

    [n * 60.0] converts [n] to the nearest float and multiplies.  Both steps
    are exact when [n] and [60 * n] are integers of magnitude at most [2^53];
    the rational product of the model is then the float the code computes. *)
Definition exact_minutes (n : Z) : Prop := (Z.abs n * 60 <= 2 ^ 53)%Z.

(** ** Python floats, bit for bit *)

Module binary64.

Definition prec : Z := 53.
Definition emax : Z := 1024.

Definition float : Type := spec_float.

(** The float nearest to an integer, ties to even; an infinity when the
    integer is beyond the largest float. *)
Definition of_Z (n : Z) : float := binary_normalize prec emax n 0 false.

Definition mul (a b : float) : float := SFmul prec emax a b.
Definition sub (a b : float) : float := SFsub prec emax a b.
Definition leb (a b : float) : bool := SFleb a b.
Definition ltb (a b : float) : bool := SFltb a b.

(** [max(a, b)]: [b] only when [b > a]. *)
Definition py_max (a b : float) : float := if ltb a b then b else a.

(** The conversion done by [n * 60.0] on its [int] operand. *)
Definition float_of_int {S} (n : Z) : Py S float :=
  match of_Z n with
  | S754_infinity _ => raise (OverflowError "int too large to convert to float")
  | f => ret f
  end.

(** [int(x)]: truncation towards zero, refused for an infinity and for NaN. *)
Definition int_of_float {S} (x : float) : Py S Z :=
  match x with
  | S754_zero _ => ret 0%Z
  | S754_infinity _ => raise (OverflowError "cannot convert float infinity to integer")
  | S754_nan => raise (ValueError "cannot convert float NaN to integer")
  | S754_finite sign m e =>
      let magnitude := (if 0 <=? e then Zpos m * 2 ^ e else Zpos m / 2 ^ (- e))%Z in
      ret (if sign then - magnitude else magnitude)%Z
  end.

(** The rational a finite float stands for. *)
Definition float_value (x : float) : option Q :=
  match x with
  | S754_zero _ => Some 0
  | S754_finite sign m e =>
      let magnitude :=
        if (0 <=? e)%Z then inject_Z (Zpos m * 2 ^ e)
        else Zpos m # Z.to_pos (2 ^ (- e)) in
      Some (if sign then - magnitude else magnitude)
  | _ => None
  end.

End binary64.

(** ** session.py on binary64 floats

    The methods of [Session] once more, with every float a binary64 value, for
    an object built on a directory without a record file. *)

Module session64.

Import binary64.

Record Saved : Type := mkSaved {
  saved_state : string;
  saved_duration_minutes : Z;
  saved_remaining_seconds : float;
  saved_started_at : float
}.

Record World64 : Type := mkWorld64 {
  monotonic_src : nat -> float;
  monotonic_calls : nat;
  time_src : nat -> float;
  time_calls : nat;
  file : option Saved
}.

Record Session : Type := mkSession {
  _state : TimerState;
  _duration_minutes : Z;
  _remaining_seconds : float;
  _started_at : float;
  _monotonic_ref : float
}.

Record Proc64 : Type := mkProc64 { self : Session; world : World64 }.

Definition M (A : Type) : Type := Py Proc64 A.

Definition get_self {A} (f : Session -> A) : M A := gets (fun p => f (self p)).

Definition set_self (f : Session -> Session) : M unit :=
  modify (fun p => mkProc64 (f (self p)) (world p)).

Definition set_state (v : TimerState) (s : Session) : Session :=
  mkSession v (_duration_minutes s) (_remaining_seconds s) (_started_at s)
    (_monotonic_ref s).
Definition set_duration_minutes (v : Z) (s : Session) : Session :=
  mkSession (_state s) v (_remaining_seconds s) (_started_at s) (_monotonic_ref s).
Definition set_remaining_seconds (v : float) (s : Session) : Session :=
  mkSession (_state s) (_duration_minutes s) v (_started_at s) (_monotonic_ref s).
Definition set_started_at (v : float) (s : Session) : Session :=
  mkSession (_state s) (_duration_minutes s) (_remaining_seconds s) v
    (_monotonic_ref s).
Definition set_monotonic_ref (v : float) (s : Session) : Session :=
  mkSession (_state s) (_duration_minutes s) (_remaining_seconds s) (_started_at s) v.

Definition time_monotonic : M float :=
  fun p =>
    let w := world p in
    (Return (monotonic_src w (monotonic_calls w)),
     mkProc64 (self p)
       (mkWorld64 (monotonic_src w) (S (monotonic_calls w)) (time_src w)
          (time_calls w) (file w))).

Definition time_time : M float :=
  fun p =>
    let w := world p in
    (Return (time_src w (time_calls w)),
     mkProc64 (self p)
       (mkWorld64 (monotonic_src w) (monotonic_calls w) (time_src w)
          (S (time_calls w)) (file w))).

Definition _format_remaining (seconds : float) : M string :=
  total <- int_of_float seconds ;;
  ret (str_int (total / 60) ++ ":" ++ fmt_02d (total mod 60)).

Definition _save : M unit :=
  modify (fun p =>
            let s := self p in
            let w := world p in
            mkProc64 s
              (mkWorld64 (monotonic_src w) (monotonic_calls w) (time_src w)
                 (time_calls w)
                 (Some (mkSaved (value (_state s)) (_duration_minutes s)
                          (_remaining_seconds s) (_started_at s))))).

Definition _get_remaining : M float :=
  s <- get_self _state ;;
  match s with
  | RUNNING =>
      now <- time_monotonic ;;
      ref <- get_self _monotonic_ref ;;
      let elapsed := sub now ref in
      rs <- get_self _remaining_seconds ;;
      ret (py_max (sub rs elapsed) (of_Z 0))
  | _ => get_self _remaining_seconds
  end.

Definition _effective_state : M TimerState :=
  s <- get_self _state ;;
  (match s with
   | RUNNING =>
       r <- _get_remaining ;;
       if leb r (of_Z 0) then set_self (set_state EXPIRED) else ret tt
   | _ => ret tt
   end) ;;
  get_self _state.

Definition _begin_running : M unit :=
  t <- time_time ;;
  set_self (set_started_at t) ;;
  m <- time_monotonic ;;
  set_self (set_monotonic_ref m) ;;
  set_self (set_state RUNNING) ;;
  _save.

Definition start (duration_minutes : Z) : M string :=
  e <- _effective_state ;;
  if state_in e session._ACTIVE_STATES
  then s <- get_self _state ;;
       raise (InvalidStateError ("start() is not valid from " ++ value s ++ " state"))
  else
    set_self (set_duration_minutes duration_minutes) ;;
    f <- float_of_int duration_minutes ;;
    set_self (set_remaining_seconds (mul f (of_Z 60))) ;;
    _begin_running ;;
    ret ("Session started: " ++ str_int duration_minutes ++ " minutes").

Definition status : M (string * Z) :=
  state <- _effective_state ;;
  match state with
  | RUNNING =>
      r <- _get_remaining ;;
      text <- _format_remaining r ;;
      ret (text ++ " remaining", 0%Z)
  | PAUSED =>
      rs <- get_self _remaining_seconds ;;
      text <- _format_remaining rs ;;
      ret (text ++ " remaining (paused)", 0%Z)
  | EXPIRED => ret ("Session expired", 1%Z)
  | IDLE => ret ("No active session", 1%Z)
  end.

Definition pause : M string :=
  remaining <- _get_remaining ;;
  set_self (set_remaining_seconds remaining) ;;
  set_self (set_state PAUSED) ;;
  t <- time_time ;;
  set_self (set_started_at t) ;;
  _save ;;
  text <- _format_remaining remaining ;;
  ret ("Session paused at " ++ text ++ " remaining").

Definition resume : M string :=
  _begin_running ;;
  rs <- get_self _remaining_seconds ;;
  text <- _format_remaining rs ;;
  ret ("Session resumed: " ++ text ++ " remaining").

Definition restart : M string :=
  d <- get_self _duration_minutes ;;
  f <- float_of_int d ;;
  set_self (set_remaining_seconds (mul f (of_Z 60))) ;;
  _begin_running ;;
  d' <- get_self _duration_minutes ;;
  ret ("Session restarted: " ++ str_int d' ++ " minutes").

(** [Session(config_dir)] when [config_dir] holds no record file: [_load]
    returns at once.  The monotonic clock reads [a] for its first [k] readings
    and [b] afterwards; the wall clock reads [wall]. *)
Definition fresh (k : nat) (a b wall : Z) : Proc64 :=
  mkProc64 (mkSession IDLE 0 (of_Z 0) (of_Z 0) (of_Z 0))
    (mkWorld64 (fun n => if Nat.ltb n k then of_Z a else of_Z b) 0
       (fun _ => of_Z wall) 0 None).

End session64.

(** ** cli/main.py

    What a command prints and how the process ends.  [click] parses the
    arguments ([minutes] arrives as an [int]) and turns [sys.exit(code)] and a
    normal return into the exit code; an exception that nothing catches ends
    the process with a traceback. *)

Module main.

Inductive Ending : Type :=
| ExitCode (code : Z)
| Traceback (e : Exn).

Record Run : Type := mkRun {
  stdout : list string;
  stderr : list string;
  ending : Ending;
  after : World
}.

(** [_run(action)]: the value of [action()], or the exit that replaces it. *)
Definition _run {A} (action : session.M A) (p : Proc session.Session)
  : (A + list string * Ending) * Proc session.Session :=
  match action p with
  | (Return a, p') => (inl a, p')
  | (Raise (InvalidStateError msg), p') => (inr ([msg], ExitCode 1), p')
  | (Raise e, p') => (inr ([], Traceback e), p')
  end.

Definition echo_message (r : (string + list string * Ending) * Proc session.Session) : Run :=
  match r with
  | (inl message, p') => mkRun [message] [] (ExitCode 0) (world p')
  | (inr (errs, e), p') => mkRun [] errs e (world p')
  end.

Definition start (minutes : Z) (w : World) : Run :=
  let sess := session.__init__ w in
  echo_message (_run (session.start minutes) sess).

Definition status (w : World) : Run :=
  let sess := session.__init__ w in
  match session.status sess with
  | (Return (message, exit_code), p') => mkRun [message] [] (ExitCode exit_code) (world p')
  | (Raise e, p') => mkRun [] [] (Traceback e) (world p')
  end.

Definition pause (w : World) : Run :=
  let sess := session.__init__ w in
  echo_message (_run session.pause sess).

Definition resume (w : World) : Run :=
  let sess := session.__init__ w in
  echo_message (_run session.resume sess).

Definition restart (w : World) : Run :=
  let sess := session.__init__ w in
  echo_message (_run session.restart sess).



End main.

(** ** Sequences of calls on one object

    A caller may catch what a method raises and go on using the object, so a
    sequence of calls threads the object and the world through every call,
    returned or raised. *)

Inductive TimerCall : Type :=
| CallStart (duration_minutes : PyNum)
| CallPause
| CallResume
| CallRestart
| CallGetRemaining.

Definition timer_call (c : TimerCall) (p : Proc timer.Timer) : Proc timer.Timer :=
  match c with
  | CallStart d => snd (timer.start d p)
  | CallPause => snd (timer.pause p)
  | CallResume => snd (timer.resume p)
  | CallRestart => snd (timer.restart p)
  | CallGetRemaining => snd (timer.get_remaining p)
  end.

Definition timer_calls (cs : list TimerCall) (p : Proc timer.Timer) : Proc timer.Timer :=
  fold_left (fun q c => timer_call c q) cs p.

Inductive SessionCall : Type :=
| SCallStart (duration_minutes : Z)
| SCallStatus
| SCallPause
| SCallResume
| SCallRestart.

Definition session_call (c : SessionCall) (p : Proc session.Session) : Proc session.Session :=
  match c with
  | SCallStart n => snd (session.start n p)
  | SCallStatus => snd (session.status p)
  | SCallPause => snd (session.pause p)
  | SCallResume => snd (session.resume p)
  | SCallRestart => snd (session.restart p)
  end.

Definition session_calls (cs : list SessionCall) (p : Proc session.Session)
  : Proc session.Session :=
  fold_left (fun q c => session_call c q) cs p.

(** The edges of the timer's state graph. *)
Definition successor (a b : TimerState) : bool :=
  match a, b with
  | IDLE, IDLE | IDLE, RUNNING => true
  | RUNNING, RUNNING | RUNNING, PAUSED | RUNNING, EXPIRED => true
  | PAUSED, PAUSED | PAUSED, RUNNING => true
  | EXPIRED, EXPIRED | EXPIRED, RUNNING => true
  | _, _ => false
  end.

(** What every timer reached from a fresh one satisfies. *)
Definition timer_ok (t : timer.Timer) : Prop :=
  0 <= timer._remaining_at_pause t /\
  0 <= timer._duration_seconds t /\
  match timer._state t with
  | IDLE => timer._original_duration_minutes t = 0%Z
  | _ => (1 <= timer._original_duration_minutes t <= 60)%Z
  end.

(** The record mirrors the object, except that an expiry noticed by a read is
    not written: the file may still say [running] for an EXPIRED object. *)
Definition mirrored (p : Proc session.Session) : Prop :=
  match file (world p) with
  | None => self p = session.mkSession IDLE 0 0 0 0
  | Some d =>
      d = session.snapshot (self p) \/
      (session._state (self p) = EXPIRED /\
       d = session.snapshot (session.set_state RUNNING (self p)))
  end.

(** The calls, commands and records whose minutes binary64 multiplies by 60
    exactly. *)
Definition exact_call (c : SessionCall) : Prop :=
  match c with
  | SCallStart n => exact_minutes n
  | _ => True
  end.



(** ** Sanity checks against the repository's tests *)

Example format_454 : session._format_remaining 454 = "7:34".
Proof. reflexivity. Qed.

Example format_5 : session._format_remaining 5 = "0:05".
Proof. reflexivity. Qed.

Example format_720 : session._format_remaining 720 = "12:00".
Proof. reflexivity. Qed.

(** [test_running_status]: start(10), 146 monotonic seconds later. *)
Example test_running_status :
  let p0 := session.__init__ (fresh_world (clock_then 1 0 146) (fun _ => 1000000)) in
  let p1 := snd (session.start 10 p0) in
  fst (session.status p1) = Return ("7:34 remaining", 0%Z).
Proof. vm_compute. reflexivity. Qed.

(** [test_expired_status]: start(1), 61 monotonic seconds later. *)
Example test_expired_status :
  let p0 := session.__init__ (fresh_world (clock_then 1 0 61) (fun _ => 1000000)) in
  let p1 := snd (session.start 1 p0) in
  fst (session.status p1) = Return ("Session expired", 1%Z).
Proof. vm_compute. reflexivity. Qed.

(** [test_pause_when_expired_raises_invalid_state] of the timer. *)
Example test_timer_pause_expired :
  let p0 := mkProc timer.__init__ (fresh_world (clock_then 1 0 61) (fun _ => 0)) in
  let p1 := snd (timer.start (PyInt 1) p0) in
  fst (timer.pause p1) = Raise (InvalidStateError "pause() is not valid from expired state").
Proof. vm_compute. reflexivity. Qed.

(** [test_running_status] on binary64 floats. *)
Example test_running_status_64 :
  fst (session64.status (snd (session64.start 10 (session64.fresh 1 0 146 1000000))))
  = Return ("7:34 remaining", 0%Z).
Proof. vm_compute. reflexivity. Qed.

(** [2^53 + 1] minutes are rounded to [2^53] by the conversion to float. *)
Example start_rounds_above_2_53 :
  fst (session64.status
         (snd (session64.start (2 ^ 53 + 1) (session64.fresh 1 0 0 1000000))))
  = Return ("9007199254740992:00 remaining", 0%Z).
Proof. vm_compute. reflexivity. Qed.

(** [10^400] minutes cannot be converted: [start] raises after it has stored
    the minutes, and before it changes the state or saves. *)
Example start_overflows :
  let r := session64.start (10 ^ 400) (session64.fresh 1 0 0 1000000) in
  fst r = Raise (OverflowError "int too large to convert to float") /\
  session64._duration_minutes (session64.self (snd r)) = (10 ^ 400)%Z /\
  session64._state (session64.self (snd r)) = IDLE /\
  session64.file (session64.world (snd r)) = None.
Proof. vm_compute. repeat split; reflexivity. Qed.

(** ** Proof support *)

Ltac unfold_py :=
  unfold bind, ret, raise, gets, modify, get_self, set_self, time_monotonic,
    time_time, read_monotonic, read_time, write_file in *.

Ltac run_timer :=
  unfold timer.pause, timer.resume, timer.restart, timer.start,
    timer.get_remaining, timer._require_state, timer._begin_running,
    timer.get_state, timer.get_original_duration in *;
  unfold_py; cbn in *.

Ltac run_session :=
  unfold session.status, session.pause, session.resume, session.restart,
    session.start, session._effective_state, session._get_remaining,
    session._begin_running, session._save, session.__init__, session._load in *;
  unfold_py; cbn in *.

Lemma Qle_bool_false_lt (a b : Q) : Qle_bool a b = false -> b < a.
Proof.
  intro H. apply Qnot_le_lt. intro Hle.
  apply Qle_bool_iff in Hle. congruence.
Qed.

Lemma py_max_0_nonneg (a : Q) : 0 <= py_max a 0.
Proof.
  unfold py_max, Qltb. destruct (Qle_bool 0 a) eqn:E; cbn.
  - now apply Qle_bool_iff.
  - apply Qle_refl.
Qed.

Lemma py_max_0_of_nonneg (a : Q) : 0 <= a -> py_max a 0 = a.
Proof.
  intro H. unfold py_max, Qltb. apply Qle_bool_iff in H. now rewrite H.
Qed.

Lemma py_max_0_of_nonpos (a : Q) : a <= 0 -> py_max a 0 == 0.
Proof.
  intro H. unfold py_max, Qltb. destruct (Qle_bool 0 a) eqn:E; cbn.
  - apply Qle_bool_iff in E. now apply Qle_antisym.
  - reflexivity.
Qed.

(** ** The guards of the timer (timer.py) *)

Section TimerGuards.

Variable p : Proc timer.Timer.

Let s := timer._state (self p).

(** A valid duration from a state other than IDLE and EXPIRED. *)
Lemma timer_start_guard (n : Z) :
  (1 <= n <= 60)%Z -> state_in s timer._VALID_START_STATES = false ->
  timer.start (PyInt n) p = (Raise (invalid "start" s), p).
Proof.
  intros Hn Hs. subst s. destruct p as [[st d o t0 r] w]. run_timer.
  assert (E : ((1 <=? n) && (n <=? 60))%Z = true)
    by (apply andb_true_iff; split; apply Z.leb_le; lia).
  unfold timer._MIN_DURATION, timer._MAX_DURATION. rewrite E. cbn.
  destruct st; cbn in Hs; try discriminate; reflexivity.
Qed.

(** [pause] outside RUNNING: nothing is read and nothing changes. *)
Lemma timer_pause_guard :
  state_in s [RUNNING] = false ->
  timer.pause p = (Raise (invalid "pause" s), p).
Proof.
  intros Hs. subst s. destruct p as [[st d o t0 r] w]. run_timer.
  destruct st; cbn in Hs; try discriminate; reflexivity.
Qed.

Lemma timer_resume_guard :
  state_in s [PAUSED] = false ->
  timer.resume p = (Raise (invalid "resume" s), p).
Proof.
  intros Hs. subst s. destruct p as [[st d o t0 r] w]. run_timer.
  destruct st; cbn in Hs; try discriminate; reflexivity.
Qed.

Lemma timer_restart_guard :
  state_in s timer._VALID_RESTART_STATES = false ->
  timer.restart p = (Raise (invalid "restart" s), p).
Proof.
  intros Hs. subst s. destruct p as [[st d o t0 r] w]. run_timer.
  destruct st; cbn in Hs; try discriminate; reflexivity.
Qed.

End TimerGuards.



(** ** The guards of the session store (session.py) *)

(** [start] is the only public method of [Session] with a guard: from PAUSED,
    and from RUNNING with time left, it raises and does not save. *)
Lemma session_start_guard_paused (p : Proc session.Session) (n : Z) :
  session._state (self p) = PAUSED ->
  session.start n p = (Raise (invalid "start" PAUSED), p).
Proof.
  destruct p as [[st dm rs sa mr] w]. cbn. intros ->. reflexivity.
Qed.

Lemma session_start_guard_running (p : Proc session.Session) (n : Z) :
  session._state (self p) = RUNNING ->
  let now := monotonic_src (world p) (monotonic_calls (world p)) in
  now - session._monotonic_ref (self p) < session._remaining_seconds (self p) ->
  fst (session.start n p) = Raise (invalid "start" RUNNING) /\
  self (snd (session.start n p)) = self p /\
  file (world (snd (session.start n p))) = file (world p).
Proof.
  destruct p as [[st dm rs sa mr] [ms mc ts tc f]]. cbn. intros -> Hlt.
  run_session.
  assert (Hpos : 0 < rs - (ms mc - mr)).
  { apply (Qplus_lt_l _ _ (ms mc - mr)). ring_simplify. exact Hlt. }
  rewrite (py_max_0_of_nonneg _ (Qlt_le_weak _ _ Hpos)).
  destruct (Qle_bool (rs - (ms mc - mr)) 0) eqn:E.
  - apply Qle_bool_iff in E. exfalso. apply (Qlt_irrefl 0).
    eapply Qlt_le_trans; eauto.
  - cbn. repeat split; reflexivity.
Qed.

(** [pause], [resume] and [restart] of [Session] never raise: whatever the
    state, they return a message and overwrite the record. *)
Lemma session_pause_total (p : Proc session.Session) :
  exists msg, fst (session.pause p) = Return msg /\
    session._state (self (snd (session.pause p))) = PAUSED /\
    file (world (snd (session.pause p))) =
      Some (session.snapshot (self (snd (session.pause p)))).
Proof.
  destruct p as [[st dm rs sa mr] [ms mc ts tc f]]. run_session.
  destruct st; cbn; eexists; repeat split; reflexivity.
Qed.

Lemma session_resume_total (p : Proc session.Session) :
  exists msg, fst (session.resume p) = Return msg /\
    session._state (self (snd (session.resume p))) = RUNNING /\
    file (world (snd (session.resume p))) =
      Some (session.snapshot (self (snd (session.resume p)))).
Proof.
  destruct p as [[st dm rs sa mr] [ms mc ts tc f]]. run_session.
  eexists; repeat split; reflexivity.
Qed.

Lemma session_restart_total (p : Proc session.Session) :
  exists msg, fst (session.restart p) = Return msg /\
    session._state (self (snd (session.restart p))) = RUNNING /\
    file (world (snd (session.restart p))) =
      Some (session.snapshot (self (snd (session.restart p)))).
Proof.
  destruct p as [[st dm rs sa mr] [ms mc ts tc f]]. run_session.
  eexists; repeat split; reflexivity.
Qed.

(** C1 (the code departs from the claim).  On a store in the IDLE state, where
    [pause], [resume] and [restart] are all outside their guard sets,
    [Session.pause], [Session.resume] and [Session.restart] raise nothing:
    each returns its success message and overwrites the record file. *)
Theorem session_unguarded_from_idle :
  session._state (self idle_store) = IDLE /\ file (world idle_store) = None /\
  session.pause idle_store =
    (Return "Session paused at 0:00 remaining",
     mkProc (session.mkSession PAUSED 0 0 1000000 0)
       (mkWorld (fun _ => 0) 0 (fun _ => 1000000) 1
          (Some (mkJson (Some "paused") (Some 0%Z) (Some 0) (Some 1000000))))) /\
  session.resume idle_store =
    (Return "Session resumed: 0:00 remaining",
     mkProc (session.mkSession RUNNING 0 0 1000000 0)
       (mkWorld (fun _ => 0) 1 (fun _ => 1000000) 1
          (Some (mkJson (Some "running") (Some 0%Z) (Some 0) (Some 1000000))))) /\
  session.restart idle_store =
    (Return "Session restarted: 0 minutes",
     mkProc (session.mkSession RUNNING 0 0 1000000 0)
       (mkWorld (fun _ => 0) 1 (fun _ => 1000000) 1
          (Some (mkJson (Some "running") (Some 0%Z) (Some 0) (Some 1000000))))).
Proof. repeat split; vm_compute; reflexivity. Qed.

(** C2 (the code departs from the claim).  [Session.start] has no duration
    check: [start(0)] from IDLE and [start(61)] from EXPIRED both return the
    success message, enter RUNNING and overwrite the record file. *)
Theorem session_start_accepts_any_duration :
  session._state (self idle_store) = IDLE /\
  session.start 0 idle_store =
    (Return "Session started: 0 minutes",
     mkProc (session.mkSession RUNNING 0 0 1000000 0)
       (mkWorld (fun _ => 0) 1 (fun _ => 1000000) 1
          (Some (mkJson (Some "running") (Some 0%Z) (Some 0) (Some 1000000))))) /\
  session._state (self expired_store) = EXPIRED /\
  session.start 61 expired_store =
    (Return "Session started: 61 minutes",
     mkProc (session.mkSession RUNNING 61 3660 1000000 0)
       (mkWorld (fun _ => 0) 1 (fun _ => 1000000) 1
          (Some (mkJson (Some "running") (Some 61%Z) (Some 3660) (Some 1000000))))).
Proof. repeat split; vm_compute; reflexivity. Qed.

(** ** Reloading a record (Session._load) *)

(** C3.  Loading a record whose state is [running], with stored remaining
    seconds [r] and wall-clock gap [g = now - started_at]: when [g < r] the
    store is RUNNING with [r - g] seconds left and its monotonic baseline is
    the reading taken during the load; when [r <= g] the store is EXPIRED with
    0 seconds left.  In neither case is the record file written. *)
Theorem load_running_record (w : World) (data : JsonRecord) (r sa : Q) :
  file w = Some data ->
  j_state data = Some "running" ->
  j_remaining_seconds data = Some r ->
  j_started_at data = Some sa ->
  let now := time_src w (time_calls w) in
  let g := now - sa in
  let p := session.__init__ w in
  (g < r ->
     session._state (self p) = RUNNING /\
     session._remaining_seconds (self p) = r - g /\
     session._monotonic_ref (self p) = monotonic_src w (monotonic_calls w)) /\
  (r <= g ->
     session._state (self p) = EXPIRED /\
     session._remaining_seconds (self p) = 0) /\
  file (world p) = file w.
Proof.
  destruct w as [ms mc ts tc f]. destruct data as [js jd jr jsa]. cbn.
  intros -> -> -> ->. run_session.
  destruct (Qle_bool (r - (ts tc - sa)) 0) eqn:E; cbn.
  - apply Qle_bool_iff in E. split; [| split; [intros _; split |]; reflexivity].
    intros Hlt. exfalso. apply (Qlt_irrefl r).
    apply Qle_lt_trans with (ts tc - sa); [| exact Hlt].
    apply (Qplus_le_l _ _ (- (ts tc - sa))). ring_simplify.
    ring_simplify in E. exact E.
  - apply Qle_bool_false_lt in E.
    split; [intros _; repeat split; reflexivity | split; [| reflexivity]].
    intros Hle. exfalso. apply (Qlt_irrefl 0).
    apply Qlt_le_trans with (r - (ts tc - sa)); [exact E |].
    apply (Qplus_le_l _ _ (ts tc - sa)). ring_simplify. exact Hle.
Qed.

Lemma load_running_record_witness :
  (session._state (self (session.__init__ (world_with (running_record 600) 1000100 5000))) = RUNNING /\
   session._remaining_seconds (self (session.__init__ (world_with (running_record 600) 1000100 5000))) = 600 - (1000100 - 1000000) /\
   session._monotonic_ref (self (session.__init__ (world_with (running_record 600) 1000100 5000))) = 5000) /\
  (session._state (self (session.__init__ (world_with (running_record 60) 1000120 5000))) = EXPIRED /\
   session._remaining_seconds (self (session.__init__ (world_with (running_record 60) 1000120 5000))) = 0).
Proof.
  split.
  - apply (load_running_record (world_with (running_record 600) 1000100 5000)
             (running_record 600) 600 1000000 eq_refl eq_refl eq_refl eq_refl).
    reflexivity.
  - apply (load_running_record (world_with (running_record 60) 1000120 5000)
             (running_record 60) 60 1000000 eq_refl eq_refl eq_refl eq_refl).
    vm_compute. discriminate.
Defined.

(** ** Pausing a countdown that has run out *)

(** [Timer.pause] queries the remaining time first: on a RUNNING timer whose
    elapsed time has reached the run duration that query moves the timer to
    EXPIRED, and the guard then raises naming the expired state. *)
Lemma timer_pause_expired (p : Proc timer.Timer) :
  timer._state (self p) = RUNNING ->
  let now := monotonic_src (world p) (monotonic_calls (world p)) in
  timer._duration_seconds (self p) <= now - timer._start_time (self p) ->
  timer.pause p =
    (Raise (InvalidStateError "pause() is not valid from expired state"),
     mkProc (timer.set_state EXPIRED (timer.set_remaining_at_pause 0 (self p)))
       (snd (read_monotonic (world p)))).
Proof.
  destruct p as [[st d o t0 r] [ms mc ts tc f]]. cbn. intros -> Hle.
  run_timer.
  assert (E : Qle_bool (d - (ms mc - t0)) 0 = true).
  { apply Qle_bool_iff. apply (Qplus_le_l _ _ (ms mc - t0)). ring_simplify. exact Hle. }
  rewrite E. reflexivity.
Qed.

(** C4 (the code departs from the claim).  [Session.pause] has neither the
    expiration check before a guard nor the guard: on a RUNNING store whose
    elapsed time (61 s) exceeds the run duration (60 s) it returns a success
    message and saves a [paused] record with 0 seconds left; the same happens
    on a store that was reloaded as EXPIRED. *)
Theorem session_pause_overdue_succeeds :
  session._state (self overdue_store) = RUNNING /\
  session._remaining_seconds (self overdue_store) = 60 /\
  fst (session.pause overdue_store) = Return "Session paused at 0:00 remaining" /\
  session._state (self (snd (session.pause overdue_store))) = PAUSED /\
  file (world (snd (session.pause overdue_store))) =
    Some (mkJson (Some "paused") (Some 1%Z) (Some 0) (Some 1000000)) /\
  session._state (self reloaded_overdue_store) = EXPIRED /\
  fst (session.pause reloaded_overdue_store) = Return "Session paused at 0:00 remaining" /\
  file (world (snd (session.pause reloaded_overdue_store))) =
    Some (mkJson (Some "paused") (Some 10%Z) (Some 0) (Some 1000120)).
Proof. repeat split; vm_compute; reflexivity. Qed.

(** ** Pause then resume *)

Lemma Qminus_self_r (v t : Q) : v - (t - t) == v.
Proof. ring. Qed.

(** Timer: [pause] takes two readings, one for the expiration check and one
    for the frozen remainder [v]; [resume] runs in any later world [w']. *)
Lemma timer_pause_resume (p : Proc timer.Timer) (w' : World) :
  timer._state (self p) = RUNNING ->
  let d := timer._duration_seconds (self p) in
  let st := timer._start_time (self p) in
  let t0 := next_monotonic (world p) in
  let t1 := next_monotonic (snd (read_monotonic (world p))) in
  let v := d - (t1 - st) in
  0 < d - (t0 - st) -> 0 < v ->
  let p1 := snd (timer.pause p) in
  let p2 := snd (timer.resume (mkProc (self p1) w')) in
  fst (timer.pause p) = Return tt /\
  timer._state (self p1) = PAUSED /\
  timer_remaining_at (self p1) t1 = Return v /\
  fst (timer.resume (mkProc (self p1) w')) = Return tt /\
  timer._state (self p2) = RUNNING /\
  exists x, timer_remaining_at (self p2) (next_monotonic w') = Return x /\ x == v.
Proof.
  destruct p as [[s d o st r] [ms mc ts tc f]]. destruct w' as [ms' mc' ts' tc' f'].
  unfold next_monotonic. cbn. intros -> H0 Hv.
  unfold timer_remaining_at, at_reading. run_timer.
  destruct (Qle_bool (d - (ms mc - st)) 0) eqn:E0.
  { apply Qle_bool_iff in E0. exfalso.
    exact (Qlt_irrefl 0 (Qlt_le_trans _ _ _ H0 E0)). }
  cbn. rewrite (py_max_0_of_nonneg _ (Qlt_le_weak _ _ Hv)).
  repeat split.
  destruct (Qle_bool (d - (ms (S mc) - st) - (ms' mc' - ms' mc')) 0) eqn:E1.
  { apply Qle_bool_iff in E1. rewrite Qminus_self_r in E1. exfalso.
    exact (Qlt_irrefl 0 (Qlt_le_trans _ _ _ Hv E1)). }
  cbn. eexists. split; [reflexivity | apply Qminus_self_r].
Qed.

(** Session, within one process: [pause] freezes the remainder [v] read at
    its one monotonic reading; [resume] runs in any later world [w']. *)
Lemma session_pause_resume (p : Proc session.Session) (w' : World) :
  session._state (self p) = RUNNING ->
  let t1 := next_monotonic (world p) in
  let v := py_max (session._remaining_seconds (self p)
                   - (t1 - session._monotonic_ref (self p))) 0 in
  let p1 := snd (session.pause p) in
  let p2 := snd (session.resume (mkProc (self p1) w')) in
  session_remaining_at (self p) t1 = Return v /\
  fst (session.pause p) =
    Return ("Session paused at " ++ session._format_remaining v ++ " remaining") /\
  session._state (self p1) = PAUSED /\
  fst (session.resume (mkProc (self p1) w')) =
    Return ("Session resumed: " ++ session._format_remaining v ++ " remaining") /\
  session._state (self p2) = RUNNING /\
  exists x, session_remaining_at (self p2) (next_monotonic w') = Return x /\ x == v.
Proof.
  destruct p as [[s dm rs sa mr] [ms mc ts tc f]]. destruct w' as [ms' mc' ts' tc' f'].
  unfold next_monotonic. cbn. intros ->.
  unfold session_remaining_at, at_reading. run_session.
  repeat split. eexists. split; [reflexivity |].
  set (v := py_max (rs - (ms mc - mr)) 0).
  assert (Hv : 0 <= v) by apply py_max_0_nonneg.
  rewrite py_max_0_of_nonneg; [apply Qminus_self_r |].
  rewrite Qminus_self_r. exact Hv.
Qed.

(** Session, across processes: the store that resumes is a new object built
    from the record that [pause] saved, in a world [w'] with any clocks. *)
Lemma session_pause_reload_resume (p : Proc session.Session) (w' : World) :
  session._state (self p) = RUNNING ->
  let t1 := next_monotonic (world p) in
  let v := py_max (session._remaining_seconds (self p)
                   - (t1 - session._monotonic_ref (self p))) 0 in
  file w' = file (world (snd (session.pause p))) ->
  let q1 := session.__init__ w' in
  let q2 := snd (session.resume q1) in
  session._state (self q1) = PAUSED /\
  fst (session.resume q1) =
    Return ("Session resumed: " ++ session._format_remaining v ++ " remaining") /\
  session._state (self q2) = RUNNING /\
  exists x, session_remaining_at (self q2) (next_monotonic w') = Return x /\ x == v.
Proof.
  destruct p as [[s dm rs sa mr] [ms mc ts tc f]]. destruct w' as [ms' mc' ts' tc' f'].
  unfold next_monotonic. cbn. intros ->.
  unfold session_remaining_at, at_reading. run_session.
  intros ->. cbn.
  repeat split. eexists. split; [reflexivity |].
  set (v := py_max (rs - (ms mc - mr)) 0).
  assert (Hv : 0 <= v) by apply py_max_0_nonneg.
  rewrite py_max_0_of_nonneg; [apply Qminus_self_r |].
  rewrite Qminus_self_r. exact Hv.
Qed.

(** C5.  On a RUNNING countdown with [v > 0] seconds remaining at the
    reading [pause] takes, [pause] followed by [resume] leaves [v] seconds
    remaining at the reading [resume] anchors to, whatever the clocks show
    when [resume] runs.  This holds for the timer, for the session store
    within one process, and for a store rebuilt from the record that the
    pause saved. *)
Theorem pause_resume_keeps_remaining :
  (forall (p : Proc timer.Timer) (w' : World),
     timer._state (self p) = RUNNING ->
     let d := timer._duration_seconds (self p) in
     let st := timer._start_time (self p) in
     let v := d - (next_monotonic (snd (read_monotonic (world p))) - st) in
     0 < d - (next_monotonic (world p) - st) -> 0 < v ->
     let p2 := snd (timer.resume (mkProc (self (snd (timer.pause p))) w')) in
     fst (timer.pause p) = Return tt /\
     fst (timer.resume (mkProc (self (snd (timer.pause p))) w')) = Return tt /\
     exists x, timer_remaining_at (self p2) (next_monotonic w') = Return x /\ x == v)
  /\
  (forall (p : Proc session.Session) (w' : World),
     session._state (self p) = RUNNING ->
     let t1 := next_monotonic (world p) in
     let v := py_max (session._remaining_seconds (self p)
                      - (t1 - session._monotonic_ref (self p))) 0 in
     let p2 := snd (session.resume (mkProc (self (snd (session.pause p))) w')) in
     session_remaining_at (self p) t1 = Return v /\
     (exists m, fst (session.pause p) = Return m) /\
     (exists m, fst (session.resume (mkProc (self (snd (session.pause p))) w')) = Return m) /\
     exists x, session_remaining_at (self p2) (next_monotonic w') = Return x /\ x == v)
  /\
  (forall (p : Proc session.Session) (w' : World),
     session._state (self p) = RUNNING ->
     let t1 := next_monotonic (world p) in
     let v := py_max (session._remaining_seconds (self p)
                      - (t1 - session._monotonic_ref (self p))) 0 in
     file w' = file (world (snd (session.pause p))) ->
     let q2 := snd (session.resume (session.__init__ w')) in
     (exists m, fst (session.resume (session.__init__ w')) = Return m) /\
     exists x, session_remaining_at (self q2) (next_monotonic w') = Return x /\ x == v).
Proof.
  split; [| split].
  - intros p w' Hs d st v H0 Hv p2.
    destruct (timer_pause_resume p w' Hs H0 Hv) as (Hp & _ & _ & Hr & _ & Hx).
    repeat split; assumption.
  - intros p w' Hs t1 v p2.
    destruct (session_pause_resume p w' Hs) as (H1 & Hp & _ & Hr & _ & Hx).
    repeat split; eauto.
  - intros p w' Hs t1 v Hf q2.
    destruct (session_pause_reload_resume p w' Hs Hf) as (_ & Hr & _ & Hx).
    split; eauto.
Qed.

Lemma pause_resume_keeps_remaining_witness :
  (exists x,
     timer_remaining_at
       (self (snd (timer.resume
                     (mkProc (self (snd (timer.pause running_timer))) (later_world None)))))
       200 = Return x /\ x == 454) /\
  (exists x,
     session_remaining_at
       (self (snd (session.resume
                     (mkProc (self (snd (session.pause running_store))) (later_world None)))))
       200 = Return x /\ x == 454) /\
  (exists x,
     session_remaining_at
       (self (snd (session.resume
                     (session.__init__
                        (later_world (file (world (snd (session.pause running_store))))))))) 
       200 = Return x /\ x == 454).
Proof.
  destruct pause_resume_keeps_remaining as (HT & HS & HR).
  split; [| split].
  - destruct (HT running_timer (later_world None) eq_refl) as (_ & _ & x & Hx & Hv).
    + vm_compute. reflexivity.
    + vm_compute. reflexivity.
    + exists x. split; [exact Hx | rewrite Hv; vm_compute; reflexivity].
  - destruct (HS running_store (later_world None) eq_refl) as (_ & _ & _ & x & Hx & Hv).
    exists x. split; [exact Hx | rewrite Hv; vm_compute; reflexivity].
  - destruct (HR running_store
                (later_world (file (world (snd (session.pause running_store)))))
                eq_refl eq_refl) as (_ & x & Hx & Hv).
    exists x. split; [exact Hx | rewrite Hv; vm_compute; reflexivity].
Defined.

(** ** Restart *)

Lemma minutes_nonneg (n : Z) : (0 <= n)%Z -> 0 <= inject_Z n * 60.
Proof. intro H. unfold Qle, Qmult, inject_Z. cbn. lia. Qed.

Lemma timer_restart_remaining (tm : timer.Timer) (t : Q) :
  timer._state tm = RUNNING -> timer._start_time tm = t ->
  0 <= timer._duration_seconds tm ->
  exists x, timer_remaining_at tm t = Return x /\ x == timer._duration_seconds tm.
Proof.
  destruct tm as [s d o st r]. cbn. intros -> -> Hd.
  unfold timer_remaining_at, at_reading. run_timer.
  destruct (Qle_bool (d - (t - t)) 0) eqn:E; cbn; eexists; split; try reflexivity.
  - apply Qle_bool_iff in E. rewrite Qminus_self_r in E. now apply Qle_antisym.
  - apply Qminus_self_r.
Qed.

Lemma session_restart_remaining (s : session.Session) (t : Q) :
  session._state s = RUNNING -> session._monotonic_ref s = t ->
  0 <= session._remaining_seconds s ->
  exists x, session_remaining_at s t = Return x /\ x == session._remaining_seconds s.
Proof.
  destruct s as [st dm rs sa mr]. cbn. intros -> -> Hd.
  unfold session_remaining_at, at_reading. run_session.
  eexists; split; [reflexivity |].
  rewrite py_max_0_of_nonneg; [apply Qminus_self_r |].
  now rewrite Qminus_self_r.
Qed.

(** C6.  From RUNNING, PAUSED or EXPIRED, and for original minutes that
    binary64 multiplies by 60 exactly (so for every duration from 1 to 60),
    [restart] returns, leaves the countdown RUNNING with a budget of
    [60 * original minutes] seconds anchored at the reading it takes, and keeps
    the original minutes; the remaining time read at that anchor is the full
    budget.  The session store also saves the corresponding [running]
    record. *)
Theorem restart_resets_to_original :
  (forall p : Proc timer.Timer,
     state_in (timer._state (self p)) timer._VALID_RESTART_STATES = true ->
     let o := timer._original_duration_minutes (self p) in
     exact_minutes o ->
     let t := next_monotonic (world p) in
     let p' := snd (timer.restart p) in
     fst (timer.restart p) = Return tt /\
     timer._state (self p') = RUNNING /\
     timer._duration_seconds (self p') = inject_Z o * 60 /\
     timer._start_time (self p') = t /\
     timer._original_duration_minutes (self p') = o /\
     ((0 <= o)%Z ->
      exists x, timer_remaining_at (self p') t = Return x /\ x == inject_Z o * 60))
  /\
  (forall p : Proc session.Session,
     state_in (session._state (self p)) timer._VALID_RESTART_STATES = true ->
     let o := session._duration_minutes (self p) in
     exact_minutes o ->
     let t := next_monotonic (world p) in
     let p' := snd (session.restart p) in
     fst (session.restart p) =
       Return ("Session restarted: " ++ str_int o ++ " minutes") /\
     session._state (self p') = RUNNING /\
     session._remaining_seconds (self p') = inject_Z o * 60 /\
     session._monotonic_ref (self p') = t /\
     session._duration_minutes (self p') = o /\
     file (world p') =
       Some (mkJson (Some "running") (Some o) (Some (inject_Z o * 60))
               (Some (time_src (world p) (time_calls (world p))))) /\
     ((0 <= o)%Z ->
      exists x, session_remaining_at (self p') t = Return x /\ x == inject_Z o * 60)).
Proof.
  split.
  - intros [[s d o st r] [ms mc ts tc f]] Hs. unfold next_monotonic. cbn in *.
    intros _.
    assert (E : timer.restart
                  (mkProc (timer.mkTimer s d o st r) (mkWorld ms mc ts tc f)) =
                (Return tt,
                 mkProc (timer.mkTimer RUNNING (inject_Z o * 60) o (ms mc) r)
                   (mkWorld ms (S mc) ts tc f))).
    { run_timer. destruct s; cbn in Hs; try discriminate; reflexivity. }
    rewrite E. cbn. repeat split.
    intros Ho. apply (timer_restart_remaining
                        (timer.mkTimer RUNNING (inject_Z o * 60) o (ms mc) r));
      try reflexivity.
    cbn. now apply minutes_nonneg.
  - intros [[s dm rs sa mr] [ms mc ts tc f]] Hs. unfold next_monotonic. cbn in *.
    intros _.
    run_session. repeat split.
    intros Ho. apply (session_restart_remaining
                        (session.mkSession RUNNING dm (inject_Z dm * 60) (ts tc) (ms mc)));
      try reflexivity.
    cbn. now apply minutes_nonneg.
Qed.

Lemma exact_minutes_1_60 (n : Z) : (1 <= n <= 60)%Z -> exact_minutes n.
Proof.
  intros Hn. unfold exact_minutes. rewrite Z.abs_eq by lia.
  apply Z.le_trans with 3600%Z; [lia |]. vm_compute. discriminate.
Qed.

(** For every duration from 1 to 60 the binary64 product [n * 60.0] is the
    float of the integer [60 * n], whose value is the rational product of the
    model. *)
Lemma minutes_product_1_60 (n : Z) :
  (1 <= n <= 60)%Z ->
  binary64.mul (binary64.of_Z n) (binary64.of_Z 60) = binary64.of_Z (n * 60) /\
  exists q, binary64.float_value (binary64.of_Z (n * 60)) = Some q /\
            q == inject_Z n * 60.
Proof.
  intros Hn. destruct n as [| q | q]; [lia | | lia].
  do 6 (try (destruct q as [q | q |]; try lia));
    (split; [vm_compute; reflexivity |]);
    eexists; (split; [vm_compute; reflexivity |]); vm_compute; reflexivity.
Qed.

Lemma restart_resets_to_original_witness :
  timer._state (self (snd (timer.restart (mkProc (self (snd (timer.pause running_timer)))
                                            (later_world None))))) = RUNNING /\
  timer._duration_seconds
    (self (snd (timer.restart (mkProc (self (snd (timer.pause running_timer)))
                                 (later_world None))))) = inject_Z 10 * 60 /\
  session._state (self (snd (session.restart overdue_store))) = RUNNING /\
  session._remaining_seconds (self (snd (session.restart overdue_store))) = inject_Z 1 * 60.
Proof.
  destruct restart_resets_to_original as (HT & HS).
  destruct (HT (mkProc (self (snd (timer.pause running_timer))) (later_world None)) eq_refl)
    as (_ & H1 & H2 & _).
  { vm_compute. discriminate. }
  destruct (HS overdue_store eq_refl) as (_ & H3 & H4 & _).
  { vm_compute. discriminate. }
  repeat split; assumption.
Defined.

(** ** Status *)

Lemma fmt_02d_width (n : Z) : (0 <= n < 60)%Z -> String.length (fmt_02d n) = 2%nat.
Proof.
  intros Hn. destruct n as [| q | q]; [reflexivity | | lia].
  do 6 (try (destruct q as [q | q |]; try lia; try reflexivity)).
Qed.

Lemma format_remaining_nonneg (x : Q) :
  0 <= x ->
  session._format_remaining x =
    str_int (Qfloor x / 60) ++ ":" ++ fmt_02d (Qfloor x mod 60) /\
  String.length (fmt_02d (Qfloor x mod 60)) = 2%nat.
Proof.
  intros Hx. unfold session._format_remaining, py_int.
  apply Qle_bool_iff in Hx. rewrite Hx. split; [reflexivity |].
  apply fmt_02d_width. apply Z.mod_pos_bound. lia.
Qed.

(** In the rational model [status()] always returns.  With [e] the effective
    state it computes first: RUNNING gives ["{M:SS} remaining"] and exit code 0,
    where the time is the non-negative remainder read after the expiry check;
    PAUSED gives ["{M:SS} remaining (paused)"] and 0 for the frozen remainder;
    EXPIRED gives ["Session expired"] and 1; IDLE gives ["No active session"]
    and 1.  For a non-negative number of seconds [{M:SS}] is the floor of the
    seconds divided by 60, a colon, and the rest modulo 60 on exactly two
    columns; 454 s is ["7:34"] and 5 s is ["0:05"]. *)
Lemma status_cases_rational :
  (forall p : Proc session.Session,
     exists e, fst (session._effective_state p) = Return e /\
       match e with
       | RUNNING =>
           exists r, fst (session._get_remaining (snd (session._effective_state p)))
                     = Return r /\ 0 <= r /\
             fst (session.status p) =
               Return (session._format_remaining r ++ " remaining", 0%Z)
       | PAUSED =>
           fst (session.status p) =
             Return (session._format_remaining (session._remaining_seconds (self p))
                     ++ " remaining (paused)", 0%Z)
       | EXPIRED => fst (session.status p) = Return ("Session expired", 1%Z)
       | IDLE => fst (session.status p) = Return ("No active session", 1%Z)
       end)
  /\
  (forall x : Q, 0 <= x ->
     session._format_remaining x =
       str_int (Qfloor x / 60) ++ ":" ++ fmt_02d (Qfloor x mod 60) /\
     String.length (fmt_02d (Qfloor x mod 60)) = 2%nat)
  /\ session._format_remaining 454 = "7:34"
  /\ session._format_remaining 5 = "0:05".
Proof.
  split; [| split; [exact format_remaining_nonneg | split; reflexivity]].
  intros [[s dm rs sa mr] [ms mc ts tc f]]. run_session.
  destruct s; cbn.
  - exists IDLE. split; reflexivity.
  - destruct (Qle_bool (py_max (rs - (ms mc - mr)) 0) 0) eqn:E; cbn.
    + exists EXPIRED. split; reflexivity.
    + exists RUNNING. split; [reflexivity |].
      eexists. split; [reflexivity |]. split; [apply py_max_0_nonneg | reflexivity].
  - exists PAUSED. split; reflexivity.
  - exists EXPIRED. split; reflexivity.
Qed.

(** C7 (the code departs from the claim).  [Session.start(10**308)] returns
    its success message and leaves the store RUNNING with an infinite number of
    remaining seconds, [10**308 * 60.0] being beyond the largest float;
    [status()] on that store then raises [OverflowError] from [int(seconds)]
    instead of returning a message and an exit code. *)
Theorem status_raises_on_infinite_remaining :
  let started := session64.start (10 ^ 308) (session64.fresh 1 0 146 1000000) in
  fst started = Return ("Session started: " ++ str_int (10 ^ 308) ++ " minutes") /\
  session64._state (session64.self (snd started)) = RUNNING /\
  session64._remaining_seconds (session64.self (snd started)) = S754_infinity false /\
  fst (session64.status (snd started))
    = Raise (OverflowError "cannot convert float infinity to integer").
Proof. vm_compute. repeat split; reflexivity. Qed.

(** ** The original duration *)

(** C8.  Neither [pause] nor [resume] changes the original duration, for the
    timer and for the session store, whether they return or raise; the record
    they save carries the same [duration_minutes].  The same holds for every
    method other than [start]: [restart], the remaining-time query and
    [status]. *)
Theorem original_duration_preserved :
  (forall p : Proc timer.Timer,
     let o := timer._original_duration_minutes (self p) in
     timer._original_duration_minutes (self (snd (timer.pause p))) = o /\
     timer._original_duration_minutes (self (snd (timer.resume p))) = o /\
     timer._original_duration_minutes (self (snd (timer.restart p))) = o /\
     timer._original_duration_minutes (self (snd (timer.get_remaining p))) = o)
  /\
  (forall p : Proc session.Session,
     let o := session._duration_minutes (self p) in
     session._duration_minutes (self (snd (session.pause p))) = o /\
     option_map j_duration_minutes (file (world (snd (session.pause p)))) = Some (Some o) /\
     session._duration_minutes (self (snd (session.resume p))) = o /\
     option_map j_duration_minutes (file (world (snd (session.resume p)))) = Some (Some o) /\
     session._duration_minutes (self (snd (session.restart p))) = o /\
     session._duration_minutes (self (snd (session.status p))) = o).
Proof.
  split.
  - intros [[s d o st r] [ms mc ts tc f]]. run_timer.
    destruct s; cbn; repeat split;
      try reflexivity;
      repeat match goal with
             | |- context [Qle_bool ?a ?b] => destruct (Qle_bool a b); cbn
             end; reflexivity.
  - intros [[s dm rs sa mr] [ms mc ts tc f]]. run_session.
    destruct s; cbn; repeat split;
      try reflexivity;
      repeat match goal with
             | |- context [Qle_bool ?a ?b] => destruct (Qle_bool a b); cbn
             end; reflexivity.
Qed.

(** ** Status does not save *)

(** C10.  [status()] never writes the record file.  In particular, on a
    RUNNING store whose elapsed time has reached the remaining budget, it
    answers ["Session expired"] and flips the in-memory state to EXPIRED while
    the file keeps what it held. *)
Theorem status_never_saves :
  (forall p : Proc session.Session,
     file (world (snd (session.status p))) = file (world p))
  /\
  (forall p : Proc session.Session,
     session._state (self p) = RUNNING ->
     session._remaining_seconds (self p)
       <= next_monotonic (world p) - session._monotonic_ref (self p) ->
     fst (session.status p) = Return ("Session expired", 1%Z) /\
     session._state (self (snd (session.status p))) = EXPIRED /\
     file (world (snd (session.status p))) = file (world p)).
Proof.
  split.
  - intros [[s dm rs sa mr] [ms mc ts tc f]]. run_session.
    destruct s; cbn; try reflexivity.
    destruct (Qle_bool (py_max (rs - (ms mc - mr)) 0) 0); reflexivity.
  - intros [[s dm rs sa mr] [ms mc ts tc f]]. unfold next_monotonic. cbn.
    intros -> Hle. run_session.
    assert (E : Qle_bool (py_max (rs - (ms mc - mr)) 0) 0 = true).
    { apply Qle_bool_iff. rewrite py_max_0_of_nonpos; [apply Qle_refl |].
      apply (Qplus_le_l _ _ (ms mc - mr)). ring_simplify. exact Hle. }
    rewrite E. cbn. repeat split.
Qed.

Lemma status_never_saves_witness :
  option_map j_state (file (world overdue_store)) = Some (Some "running") /\
  fst (session.status overdue_store) = Return ("Session expired", 1%Z) /\
  session._state (self (snd (session.status overdue_store))) = EXPIRED /\
  option_map j_state (file (world (snd (session.status overdue_store))))
    = Some (Some "running").
Proof.
  destruct (proj2 status_never_saves overdue_store eq_refl) as (H1 & H2 & H3).
  - vm_compute. discriminate.
  - split; [reflexivity |]. split; [exact H1 |]. split; [exact H2 |].
    rewrite H3. reflexivity.
Defined.

(** C9 (the code departs from the claim).  The loading process checks that
    the file exists, opens it and takes the shared lock; the saving process
    then opens the file for writing, which empties it before any exclusive
    lock is asked for; the loading process, still holding its shared lock,
    reads an empty file, which is neither the old record nor the new one. *)
Theorem save_truncates_outside_lock :
  exists s,
    locking.run new_record
      [locking.Loader; locking.Loader; locking.Loader;
       locking.Saver; locking.Saver; locking.Loader] (locking.init old_record) = Some s /\
    locking.sh_held s = true /\
    locking.ex_held s = false /\
    locking.save_pc s = locking.SaveFlock /\
    locking.loaded s = Some locking.EmptyFile.
Proof. eexists. repeat split. Qed.

(** With the shared lock held the saving process cannot take its exclusive
    lock, and once it holds the exclusive lock no load can start reading:
    the locks themselves do exclude each other. *)
Lemma flock_excludes (data : JsonRecord) (s : locking.Sys) :
  (locking.save_pc s = locking.SaveFlock -> locking.sh_held s = true ->
   locking.save_step data s = None) /\
  (locking.load_pc s = locking.LoadFlock -> locking.ex_held s = true ->
   locking.load_step s = None).
Proof.
  split; intros Hpc Hl.
  - unfold locking.save_step. now rewrite Hpc, Hl.
  - unfold locking.load_step. now rewrite Hpc, Hl.
Qed.

(** ** Further properties of the timer *)

Lemma Qlt_minus_pos (a b : Q) : b < a -> 0 < a - b.
Proof. intro H. apply (Qplus_lt_l _ _ b). ring_simplify. exact H. Qed.

Lemma Qle_minus_nonpos (a b : Q) : a <= b -> a - b <= 0.
Proof. intro H. apply (Qplus_le_l _ _ b). ring_simplify. exact H. Qed.

Lemma Qle_bool_pos_false (a : Q) : 0 < a -> Qle_bool a 0 = false.
Proof.
  intro H. destruct (Qle_bool a 0) eqn:E; [| reflexivity].
  apply Qle_bool_iff in E. exfalso. exact (Qlt_irrefl 0 (Qlt_le_trans _ _ _ H E)).
Qed.

(** X1.  A valid [start] from IDLE or EXPIRED returns and records the minutes.
    Queried at monotonic reading [t], the timer then reports
    [60 * minutes - (t - t0)] and stays RUNNING while that is positive, [t0]
    being the reading [start] took; from the moment it is not, the query
    reports 0 and leaves the timer EXPIRED. *)
Theorem timer_start_countdown (p : Proc timer.Timer) (n : Z) (t : Q) :
  (1 <= n <= 60)%Z ->
  state_in (timer._state (self p)) timer._VALID_START_STATES = true ->
  let t0 := next_monotonic (world p) in
  let p1 := snd (timer.start (PyInt n) p) in
  let q := timer.get_remaining (mkProc (self p1) (at_reading t)) in
  fst (timer.start (PyInt n) p) = Return tt /\
  timer._state (self p1) = RUNNING /\
  timer._original_duration_minutes (self p1) = n /\
  (t - t0 < inject_Z n * 60 ->
     fst q = Return (inject_Z n * 60 - (t - t0)) /\
     timer._state (self (snd q)) = RUNNING) /\
  (inject_Z n * 60 <= t - t0 ->
     fst q = Return 0 /\ timer._state (self (snd q)) = EXPIRED).
Proof.
  intros Hn Hs. destruct p as [[s d o st r] [ms mc ts tc f]].
  unfold next_monotonic, at_reading. cbv zeta. cbn in Hs.
  assert (E : ((1 <=? n) && (n <=? 60))%Z = true)
    by (apply andb_true_iff; split; apply Z.leb_le; lia).
  assert (Hstart : timer.start (PyInt n)
                     (mkProc (timer.mkTimer s d o st r) (mkWorld ms mc ts tc f)) =
                   (Return tt,
                    mkProc (timer.mkTimer RUNNING (inject_Z n * 60) n (ms mc) r)
                      (mkWorld ms (S mc) ts tc f))).
  { run_timer. unfold timer._MIN_DURATION, timer._MAX_DURATION. rewrite E. cbn.
    destruct s; cbn in Hs; try discriminate; reflexivity. }
  rewrite Hstart. cbn [fst snd self world]. clear Hstart.
  split; [reflexivity |]. split; [reflexivity |]. split; [reflexivity |].
  split; intros H.
  - run_timer. rewrite (Qle_bool_pos_false _ (Qlt_minus_pos _ _ H)).
    split; reflexivity.
  - run_timer. apply Qle_minus_nonpos in H. apply Qle_bool_iff in H.
    rewrite H. split; reflexivity.
Qed.

Lemma timer_start_countdown_witness :
  fst (timer.get_remaining
         (mkProc (self (snd (timer.start (PyInt 25)
                               (mkProc timer.__init__ (at_reading 0)))))
            (at_reading 10)))
  = Return (inject_Z 25 * 60 - (10 - 0)).
Proof.
  destruct (timer_start_countdown (mkProc timer.__init__ (at_reading 0)) 25 10)
    as (_ & _ & _ & H & _).
  - lia.
  - reflexivity.
  - apply H. reflexivity.
Defined.

Ltac split_tests :=
  repeat (cbn in *;
          match goal with
          | |- context [Qle_bool ?a ?b] => destruct (Qle_bool a b) eqn:?
          | |- context [(?a <=? ?b)%Z] => destruct (a <=? b)%Z eqn:?
          end);
  cbn in *.

Lemma timer_call_successor (c : TimerCall) (p : Proc timer.Timer) :
  successor (timer._state (self p)) (timer._state (self (timer_call c p))) = true.
Proof.
  destruct p as [[s d o st r] [ms mc ts tc f]].
  destruct c as [[n | x] | | | |]; unfold timer_call; run_timer;
    unfold timer._MIN_DURATION, timer._MAX_DURATION;
    destruct s; split_tests; reflexivity.
Qed.

(** X2.  Every call moves the timer along an edge of its state graph: IDLE
    is left only for RUNNING, PAUSED only for RUNNING, EXPIRED only for
    RUNNING, and RUNNING only for PAUSED or EXPIRED; this holds whether the
    call returns or raises.  Hence no sequence of calls brings a timer that
    has left IDLE back to IDLE. *)
Theorem timer_state_graph :
  (forall (c : TimerCall) (p : Proc timer.Timer),
     successor (timer._state (self p)) (timer._state (self (timer_call c p))) = true)
  /\
  (forall (cs : list TimerCall) (p : Proc timer.Timer),
     timer._state (self p) <> IDLE ->
     timer._state (self (timer_calls cs p)) <> IDLE).
Proof.
  split; [exact timer_call_successor |].
  unfold timer_calls. induction cs as [| c cs IH]; intros p Hp; cbn; [exact Hp |].
  apply IH. pose proof (timer_call_successor c p) as H.
  destruct (timer._state (self p)); [congruence | | |];
    destruct (timer._state (self (timer_call c p))); cbn in H; congruence.
Qed.

Lemma timer_state_graph_witness :
  timer._state
    (self (timer_calls [CallPause; CallGetRemaining; CallResume; CallStart (PyInt 0)]
             running_timer)) <> IDLE.
Proof.
  apply (proj2 timer_state_graph). vm_compute. discriminate.
Defined.

Lemma timer_call_ok (c : TimerCall) (p : Proc timer.Timer) :
  timer_ok (self p) -> timer_ok (self (timer_call c p)).
Proof.
  destruct p as [[s d o st r] [ms mc ts tc f]]. unfold timer_ok. cbn.
  intros (Hr & Hd & Ho).
  destruct c as [[n | x] | | | |]; unfold timer_call; run_timer;
    unfold timer._MIN_DURATION, timer._MAX_DURATION;
    destruct s; split_tests;
    repeat split;
    try assumption; try apply Qle_refl; try apply py_max_0_nonneg;
    try (apply minutes_nonneg; lia);
    try match goal with
        | H1 : (1 <=? _)%Z = true, H2 : (_ <=? 60)%Z = true |- _ =>
            apply Z.leb_le in H1; apply Z.leb_le in H2; lia
        end;
    try lia.
Qed.

(** X3.  After any sequence of calls on a fresh timer, returned or raised:
    the frozen remainder and the run duration are not negative, the original
    duration is 0 while the timer is IDLE and within 1..60 afterwards, and the
    remaining time the timer reports is never negative. *)
Theorem timer_reachable_ok (cs : list TimerCall) (w : World) :
  let p := timer_calls cs (mkProc timer.__init__ w) in
  timer_ok (self p) /\
  exists x, fst (timer.get_remaining p) = Return x /\ 0 <= x.
Proof.
  cbv zeta.
  assert (Hok : timer_ok (self (timer_calls cs (mkProc timer.__init__ w)))).
  { assert (H0 : timer_ok (self (mkProc timer.__init__ w))).
    { unfold timer_ok. cbn. repeat split; apply Qle_refl. }
    revert H0. generalize (mkProc timer.__init__ w).
    unfold timer_calls. induction cs as [| c cs IH]; intros p Hp; cbn; [exact Hp |].
    apply IH. now apply timer_call_ok. }
  split; [exact Hok |].
  destruct (timer_calls cs (mkProc timer.__init__ w)) as [[s d o st r] [ms mc ts tc f]].
  destruct Hok as (Hr & Hd & Ho). cbn in *. run_timer.
  destruct s; cbn.
  - eexists; split; [reflexivity | apply Qle_refl].
  - destruct (Qle_bool (d - (ms mc - st)) 0) eqn:E; cbn.
    + eexists; split; [reflexivity | apply Qle_refl].
    + eexists; split; [reflexivity |].
      apply Qlt_le_weak. now apply Qle_bool_false_lt.
  - eexists; split; [reflexivity | exact Hr].
  - eexists; split; [reflexivity | apply Qle_refl].
Qed.

(** X4.  After a pause that froze [v > 0] seconds and a resume anchored at
    reading [t2], the timer queried at reading [t] reports [v - (t - t2)] and
    stays RUNNING while that is positive, and reports 0 and becomes EXPIRED
    otherwise: the time spent paused is never counted, whatever the clock
    showed when [resume] ran. *)
Theorem timer_resume_countdown (p : Proc timer.Timer) (w' : World) (t : Q) :
  timer._state (self p) = RUNNING ->
  let d := timer._duration_seconds (self p) in
  let st := timer._start_time (self p) in
  let v := d - (next_monotonic (snd (read_monotonic (world p))) - st) in
  0 < d - (next_monotonic (world p) - st) -> 0 < v ->
  let t2 := next_monotonic w' in
  let p2 := snd (timer.resume (mkProc (self (snd (timer.pause p))) w')) in
  let q := timer.get_remaining (mkProc (self p2) (at_reading t)) in
  (t - t2 < v ->
     fst q = Return (v - (t - t2)) /\ timer._state (self (snd q)) = RUNNING) /\
  (v <= t - t2 ->
     fst q = Return 0 /\ timer._state (self (snd q)) = EXPIRED).
Proof.
  destruct p as [[s d o st r] [ms mc ts tc f]]. destruct w' as [ms' mc' ts' tc' f'].
  unfold next_monotonic, at_reading. cbn. intros -> H0 Hv.
  run_timer. rewrite (Qle_bool_pos_false _ H0). cbn.
  rewrite (py_max_0_of_nonneg _ (Qlt_le_weak _ _ Hv)).
  split; intros H.
  - rewrite (Qle_bool_pos_false _ (Qlt_minus_pos _ _ H)). split; reflexivity.
  - apply Qle_minus_nonpos in H. apply Qle_bool_iff in H. rewrite H.
    split; reflexivity.
Qed.

Lemma timer_resume_countdown_witness :
  fst (timer.get_remaining
         (mkProc (self (snd (timer.resume
                               (mkProc (self (snd (timer.pause running_timer)))
                                  (later_world None)))))
            (at_reading 205)))
  = Return (600 - (146 - 0) - (205 - 200)).
Proof.
  destruct (timer_resume_countdown running_timer (later_world None) 205 eq_refl)
    as (H & _).
  - vm_compute. reflexivity.
  - vm_compute. reflexivity.
  - apply H. vm_compute. reflexivity.
Defined.

(** ** Further properties of the session store *)

Lemma Qle_bool_Qeq (a x y : Q) : x == y -> Qle_bool a x = Qle_bool a y.
Proof.
  intro H. destruct (Qle_bool a x) eqn:Ex, (Qle_bool a y) eqn:Ey; try reflexivity.
  - apply Qle_bool_iff in Ex. rewrite H in Ex. apply Qle_bool_iff in Ex. congruence.
  - apply Qle_bool_iff in Ey. rewrite <- H in Ey. apply Qle_bool_iff in Ey. congruence.
Qed.

Lemma format_remaining_Qeq (x y : Q) :
  x == y -> session._format_remaining x = session._format_remaining y.
Proof.
  intro H. unfold session._format_remaining, py_int.
  rewrite (Qle_bool_Qeq 0 x y H), (Qfloor_comp x y H), (Qceiling_comp x y H).
  reflexivity.
Qed.

Lemma append_assoc (a b c : string) : (a ++ b) ++ c = a ++ (b ++ c).
Proof. induction a as [| ch a IH]; cbn; [reflexivity | now rewrite IH]. Qed.

Lemma format_whole_minutes (n : Z) :
  (0 <= n)%Z -> session._format_remaining (inject_Z n * 60) = str_int n ++ ":00".
Proof.
  intro Hn. unfold session._format_remaining, py_int.
  pose proof (minutes_nonneg n Hn) as H. apply Qle_bool_iff in H. rewrite H.
  assert (E : Qfloor (inject_Z n * 60) = (n * 60)%Z).
  { unfold Qfloor, Qmult, inject_Z. cbn. apply Z.div_1_r. }
  rewrite E, Z.div_mul, Z.mod_mul by lia. reflexivity.
Qed.

(** X5.  [Session.start] is decided by the effective state [e] it computes
    first.  When [e] is RUNNING or PAUSED it raises, naming [e], and the record
    file and the stored duration are as before, whatever the minutes.
    Otherwise (IDLE, EXPIRED, or a running session whose time is up), and for
    minutes that binary64 multiplies by 60 exactly, it returns the start
    message, the store is RUNNING with [60 * minutes] seconds, and the record
    saved says so with the wall-clock reading taken. *)
Theorem session_start_outcome (p : Proc session.Session) (n : Z) (e : TimerState) :
  fst (session._effective_state p) = Return e ->
  let r := session.start n p in
  if state_in e session._ACTIVE_STATES
  then fst r = Raise (invalid "start" e) /\
       session._state (self (snd r)) = e /\
       session._duration_minutes (self (snd r)) = session._duration_minutes (self p) /\
       file (world (snd r)) = file (world p)
  else exact_minutes n ->
       fst r = Return ("Session started: " ++ str_int n ++ " minutes") /\
       session._state (self (snd r)) = RUNNING /\
       session._duration_minutes (self (snd r)) = n /\
       session._remaining_seconds (self (snd r)) = inject_Z n * 60 /\
       file (world (snd r)) =
         Some (mkJson (Some "running") (Some n) (Some (inject_Z n * 60))
                 (Some (time_src (world p) (time_calls (world p))))).
Proof.
  destruct p as [[s dm rs sa mr] [ms mc ts tc f]]. run_session.
  destruct s; cbn.
  - intros [= <-]. cbn. intros _. repeat split.
  - destruct (Qle_bool (py_max (rs - (ms mc - mr)) 0) 0); cbn;
      intros [= <-]; cbn; try intros _; repeat split.
  - intros [= <-]. cbn. repeat split.
  - intros [= <-]. cbn. intros _. repeat split.
Qed.

Lemma session_start_outcome_witness :
  fst (session.start 5 running_store) = Raise (invalid "start" RUNNING) /\
  fst (session.start 5 overdue_store) = Return "Session started: 5 minutes" /\
  fst (session.start 5 (snd (session.pause running_store)))
    = Raise (invalid "start" PAUSED).
Proof.
  split; [| split].
  - apply (session_start_outcome running_store 5 RUNNING). vm_compute. reflexivity.
  - apply (session_start_outcome overdue_store 5 EXPIRED).
    + vm_compute. reflexivity.
    + vm_compute. discriminate.
  - apply (session_start_outcome (snd (session.pause running_store)) 5 PAUSED).
    vm_compute. reflexivity.
Defined.

(** X6.  On a store that is IDLE or EXPIRED, [start(n)] with [n >= 1] that
    binary64 multiplies by 60 exactly, followed by [status()] before the
    monotonic clock has moved, reports exactly ["n:00 remaining"] with exit
    code 0. *)
Theorem session_start_then_status (p : Proc session.Session) (n : Z) :
  (1 <= n)%Z -> exact_minutes n ->
  state_in (session._state (self p)) session._ACTIVE_STATES = false ->
  let m := monotonic_src (world p) in
  let k := monotonic_calls (world p) in
  m (S k) == m k -> m (S (S k)) == m k ->
  fst (session.status (snd (session.start n p)))
    = Return (str_int n ++ ":00 remaining", 0%Z).
Proof.
  destruct p as [[s dm rs sa mr] [ms mc ts tc f]]. cbn. intros Hn _ Hs H1 H2.
  assert (Hpos : 0 < inject_Z n * 60).
  { unfold Qlt, Qmult, inject_Z. cbn. lia. }
  assert (E1 : py_max (inject_Z n * 60 - (ms (S mc) - ms mc)) 0 == inject_Z n * 60).
  { rewrite py_max_0_of_nonneg; rewrite H1, Qminus_self_r;
      [reflexivity | now apply Qlt_le_weak]. }
  assert (E2 : py_max (inject_Z n * 60 - (ms (S (S mc)) - ms mc)) 0 == inject_Z n * 60).
  { rewrite py_max_0_of_nonneg; rewrite H2, Qminus_self_r;
      [reflexivity | now apply Qlt_le_weak]. }
  assert (F : Qle_bool (py_max (inject_Z n * 60 - (ms (S mc) - ms mc)) 0) 0 = false).
  { apply Qle_bool_pos_false. now rewrite E1. }
  run_session. destruct s; cbn in Hs; try discriminate; cbn;
    rewrite F; cbn; rewrite (format_remaining_Qeq _ _ E2), format_whole_minutes by lia;
    rewrite append_assoc; reflexivity.
Qed.

Lemma session_start_then_status_witness :
  fst (session.status (snd (session.start 12 idle_store)))
    = Return ("12:00 remaining", 0%Z).
Proof.
  apply (session_start_then_status idle_store 12);
    [lia | vm_compute; discriminate | reflexivity | | ];
    vm_compute; reflexivity.
Defined.

(** X7.  Save then load is the identity outside RUNNING: a store built on
    the record that a store in state IDLE, PAUSED or EXPIRED dumps has the same
    state, duration, remaining seconds and start time, reads no clock and
    leaves the file alone. *)
Theorem save_load_roundtrip (s : session.Session) (w : World) :
  session._state s <> RUNNING ->
  file w = Some (session.snapshot s) ->
  session.__init__ w =
    mkProc (session.mkSession (session._state s) (session._duration_minutes s)
              (session._remaining_seconds s) (session._started_at s) 0) w.
Proof.
  destruct s as [st dm rs sa mr]. destruct w as [ms mc ts tc f]. cbn.
  intros Hst ->. run_session. destruct st; try congruence; reflexivity.
Qed.

Lemma save_load_roundtrip_witness :
  self (session.__init__ (later_world (file (world (snd (session.pause running_store))))))
  = session.mkSession PAUSED 10 (600 - (146 - 0)) 1000000 0.
Proof.
  rewrite (save_load_roundtrip (self (snd (session.pause running_store)))
             (later_world (file (world (snd (session.pause running_store)))))).
  - vm_compute. reflexivity.
  - vm_compute. discriminate.
  - reflexivity.
Defined.

(** X8.  A record whose [state] key is missing, or holds anything other than
    [running], [paused] or [expired], loads as IDLE: the other keys are still
    read, each missing one as 0, no clock is read, and [status()] answers
    ["No active session"] with exit code 1. *)
Theorem load_unrecognised_state (w : World) (data : JsonRecord) :
  file w = Some data ->
  let raw_state := session.dict_get (j_state data) "idle" in
  raw_state <> "running" -> raw_state <> "paused" -> raw_state <> "expired" ->
  session.__init__ w =
    mkProc (session.mkSession IDLE
              (session.dict_get (j_duration_minutes data) 0%Z)
              (session.dict_get (j_remaining_seconds data) 0)
              (session.dict_get (j_started_at data) 0) 0) w /\
  fst (session.status (session.__init__ w)) = Return ("No active session", 1%Z).
Proof.
  destruct w as [ms mc ts tc f]. cbn. intros -> Hr Hp He.
  apply String.eqb_neq in Hr, Hp, He.
  assert (E : session.__init__ (mkWorld ms mc ts tc (Some data)) =
              mkProc (session.mkSession IDLE
                        (session.dict_get (j_duration_minutes data) 0%Z)
                        (session.dict_get (j_remaining_seconds data) 0)
                        (session.dict_get (j_started_at data) 0) 0)
                (mkWorld ms mc ts tc (Some data))).
  { run_session. rewrite Hr, Hp, He. reflexivity. }
  rewrite E. split; reflexivity.
Qed.

Lemma load_unrecognised_state_witness :
  session.__init__ (world_with (mkJson None (Some 10%Z) None None) 1000100 5000) =
    mkProc (session.mkSession IDLE 10 0 0 0)
      (world_with (mkJson None (Some 10%Z) None None) 1000100 5000).
Proof.
  apply (load_unrecognised_state
           (world_with (mkJson None (Some 10%Z) None None) 1000100 5000)
           (mkJson None (Some 10%Z) None None) eq_refl); discriminate.
Defined.

(** X9.  Once [status()] has answered ["Session expired"], every later
    [status()] on the same object gives the same answer, whatever the clocks
    read and whatever the file holds. *)
Theorem session_expired_stays_expired (p : Proc session.Session) (w' : World) :
  fst (session.status p) = Return ("Session expired", 1%Z) ->
  session._state (self (snd (session.status p))) = EXPIRED /\
  fst (session.status (mkProc (self (snd (session.status p))) w'))
    = Return ("Session expired", 1%Z).
Proof.
  destruct p as [[s dm rs sa mr] [ms mc ts tc f]]. run_session.
  destruct s; cbn; try discriminate.
  - destruct (Qle_bool (py_max (rs - (ms mc - mr)) 0) 0); cbn;
      [split; reflexivity | discriminate].
  - split; reflexivity.
Qed.

Lemma session_expired_stays_expired_witness :
  fst (session.status (mkProc (self (snd (session.status overdue_store))) (at_reading 0)))
    = Return ("Session expired", 1%Z).
Proof.
  apply (session_expired_stays_expired overdue_store (at_reading 0)).
  vm_compute. reflexivity.
Defined.

Lemma session_call_mirrored (c : SessionCall) (p : Proc session.Session) :
  mirrored p -> mirrored (session_call c p).
Proof.
  destruct p as [[s dm rs sa mr] [ms mc ts tc f]]. unfold mirrored. cbn.
  intros H.
  destruct c; unfold session_call; run_session; destruct s; split_tests;
    try (left; reflexivity);
    destruct f as [d |]; try assumption;
    try (destruct H as [-> | [[=] _]]; right; split; reflexivity);
    try (destruct H as [-> | [_ ->]]; [left | right; split]; reflexivity);
    try discriminate.
Qed.

(** X10.  Starting from a store with no record file, after any sequence of
    calls whose [start] minutes binary64 multiplies by 60 exactly, the file is
    either absent with the object untouched, or it is exactly the dump of the
    object, except that the object may be EXPIRED while the file still says
    [running] (an expiry noticed by a read is not written). *)
Theorem session_record_mirrors (cs : list SessionCall) (w : World) :
  file w = None ->
  Forall exact_call cs ->
  mirrored (session_calls cs (session.__init__ w)).
Proof.
  intros Hf _.
  assert (H0 : mirrored (session.__init__ w)).
  { destruct w as [ms mc ts tc f]. cbn in Hf. subst f. reflexivity. }
  revert H0. generalize (session.__init__ w).
  unfold session_calls. induction cs as [| c cs IH]; intros p Hp; cbn; [exact Hp |].
  apply IH. now apply session_call_mirrored.
Qed.

Lemma session_record_mirrors_witness :
  mirrored (session_calls [SCallStart 1; SCallStatus; SCallPause; SCallStart 3]
              (session.__init__ (fresh_world (clock_then 1 0 61) (fun _ => 1000000)))).
Proof.
  apply (session_record_mirrors
           [SCallStart 1; SCallStatus; SCallPause; SCallStart 3]
           (fresh_world (clock_then 1 0 61) (fun _ => 1000000))).
  - reflexivity.
  - repeat constructor; vm_compute; discriminate.
Defined.

(** ** The commands (cli/main.py) *)




(** X12.  A first [start n], for [n] from 1 to 60, survives the end of its
    process.  A later
    [status] command, run as a new process on the record that [start] left
    and while its own monotonic clock stands still, prints the time left by
    the wall clock, [60 * n - (T1 - T0)] seconds as M:SS with exit code 0, as
    long as that is positive, and ["Session expired"] with exit code 1 from
    then on; [T0] and [T1] are the wall-clock readings of the two processes.
    The record is not rewritten by [status]. *)
Theorem cli_start_then_status (w w2 : World) (n : Z) :
  (1 <= n <= 60)%Z ->
  file w = None ->
  file w2 = file (main.after (main.start n w)) ->
  let T0 := time_src w (time_calls w) in
  let T1 := time_src w2 (time_calls w2) in
  let m := monotonic_src w2 in
  let k := monotonic_calls w2 in
  m (S k) == m k -> m (S (S k)) == m k ->
  let r := main.status w2 in
  main.stdout (main.start n w) = ["Session started: " ++ str_int n ++ " minutes"] /\
  (T1 - T0 < inject_Z n * 60 ->
     main.stdout r =
       [session._format_remaining (inject_Z n * 60 - (T1 - T0)) ++ " remaining"] /\
     main.ending r = main.ExitCode 0) /\
  (inject_Z n * 60 <= T1 - T0 ->
     main.stdout r = ["Session expired"] /\ main.ending r = main.ExitCode 1) /\
  file (main.after r) = file w2.
Proof.
  destruct w as [ms mc ts tc f]. destruct w2 as [ms2 mc2 ts2 tc2 f2]. cbn.
  intros _ -> Hf2 H1 H2.
  unfold main.start, main.status, main.echo_message, main._run in *.
  run_session. subst f2. cbn.
  split; [reflexivity |].
  set (adj := inject_Z n * 60 - (ts2 tc2 - ts tc)).
  destruct (Qle_bool adj 0) eqn:E; cbn.
  - apply Qle_bool_iff in E. split; [| split; [intros _; split |]; reflexivity].
    intros Hlt. exfalso. apply Qlt_minus_pos in Hlt.
    exact (Qlt_irrefl 0 (Qlt_le_trans _ _ _ Hlt E)).
  - apply Qle_bool_false_lt in E.
    assert (E1 : py_max (adj - (ms2 (S mc2) - ms2 mc2)) 0 == adj).
    { rewrite py_max_0_of_nonneg; rewrite H1, Qminus_self_r;
        [reflexivity | now apply Qlt_le_weak]. }
    assert (E2 : py_max (adj - (ms2 (S (S mc2)) - ms2 mc2)) 0 == adj).
    { rewrite py_max_0_of_nonneg; rewrite H2, Qminus_self_r;
        [reflexivity | now apply Qlt_le_weak]. }
    assert (F : Qle_bool (py_max (adj - (ms2 (S mc2) - ms2 mc2)) 0) 0 = false).
    { apply Qle_bool_pos_false. now rewrite E1. }
    rewrite F. cbn. rewrite (format_remaining_Qeq _ _ E2).
    split; [intros _; split; reflexivity | split; [| reflexivity]].
    intros Hle. exfalso. apply Qle_minus_nonpos in Hle.
    exact (Qlt_irrefl 0 (Qlt_le_trans _ _ _ E Hle)).
Qed.

Lemma cli_start_then_status_witness :
  main.stdout
    (main.status
       (mkWorld (fun _ => 5000) 0 (fun _ => 1000100) 0
          (file (main.after (main.start 10 (fresh_world (fun _ => 0) (fun _ => 1000000)))))))
  = ["8:20 remaining"].
Proof.
  assert (E : (1 <= 10 <= 60)%Z) by lia.
  pose proof (cli_start_then_status
                (fresh_world (fun _ => 0) (fun _ => 1000000))
                (mkWorld (fun _ => 5000) 0 (fun _ => 1000100) 0
                   (file (main.after (main.start 10 (fresh_world (fun _ => 0) (fun _ => 1000000))))))
                10 E eq_refl eq_refl) as H.
  cbv zeta in H.
  destruct H as (_ & H & _); [reflexivity | reflexivity |].
  destruct H as [H _]; [vm_compute; reflexivity |]. rewrite H. reflexivity.
Defined.

(** ** A paused countdown, and the timer's rejections *)

(** X15.  A paused countdown is frozen.  After a [pause] of a RUNNING timer
    that still had time left, the remaining-time query returns the frozen
    value in every world, reading no clock and changing nothing; after a
    [pause] of a RUNNING session, [status()] answers the frozen time followed
    by ["remaining (paused)"] with exit code 0 in every world, again reading
    no clock and writing nothing. *)
Theorem paused_is_frozen :
  (forall (p : Proc timer.Timer) (w' : World),
     timer._state (self p) = RUNNING ->
     let d := timer._duration_seconds (self p) in
     let st := timer._start_time (self p) in
     0 < d - (next_monotonic (world p) - st) ->
     let v := py_max (d - (next_monotonic (snd (read_monotonic (world p))) - st)) 0 in
     let p1 := mkProc (self (snd (timer.pause p))) w' in
     timer.get_remaining p1 = (Return v, p1))
  /\
  (forall (p : Proc session.Session) (w' : World),
     session._state (self p) = RUNNING ->
     let v := py_max (session._remaining_seconds (self p)
                      - (next_monotonic (world p) - session._monotonic_ref (self p))) 0 in
     let p1 := mkProc (self (snd (session.pause p))) w' in
     session.status p1 =
       (Return (session._format_remaining v ++ " remaining (paused)", 0%Z), p1)).
Proof.
  split.
  - intros [[s d o st r] [ms mc ts tc f]] w'. unfold next_monotonic. cbn.
    intros -> H0. run_timer. rewrite (Qle_bool_pos_false _ H0). reflexivity.
  - intros [[s dm rs sa mr] [ms mc ts tc f]] w'. unfold next_monotonic. cbn.
    intros ->. run_session. reflexivity.
Qed.

Lemma paused_is_frozen_witness :
  fst (timer.get_remaining
         (mkProc (self (snd (timer.pause running_timer))) (at_reading 100000)))
    = Return (py_max (inject_Z 10 * 60 - (146 - 0)) 0) /\
  fst (session.status
         (mkProc (self (snd (session.pause running_store))) (at_reading 100000)))
    = Return ("7:34 remaining (paused)", 0%Z).
Proof.
  destruct paused_is_frozen as (HT & HS). split.
  - rewrite (HT running_timer (at_reading 100000) eq_refl); [reflexivity |].
    vm_compute. reflexivity.
  - rewrite (HS running_store (at_reading 100000) eq_refl). reflexivity.
Defined.

(** X16.  The timer's guards.  [start] with a valid duration outside IDLE
    and EXPIRED, [pause] outside RUNNING, [resume] outside PAUSED and [restart]
    from IDLE raise [InvalidStateError] with the text
    ["<method>() is not valid from <state> state"], and leave the timer and
    the clock exactly as they were. *)
Theorem timer_guards_reject (p : Proc timer.Timer) :
  let s := timer._state (self p) in
  (forall n : Z, (1 <= n <= 60)%Z ->
     state_in s timer._VALID_START_STATES = false ->
     timer.start (PyInt n) p = (Raise (invalid "start" s), p)) /\
  (state_in s [RUNNING] = false ->
     timer.pause p = (Raise (invalid "pause" s), p)) /\
  (state_in s [PAUSED] = false ->
     timer.resume p = (Raise (invalid "resume" s), p)) /\
  (state_in s timer._VALID_RESTART_STATES = false ->
     timer.restart p = (Raise (invalid "restart" s), p)).
Proof.
  cbv zeta. repeat split.
  - intros n. apply timer_start_guard.
  - apply timer_pause_guard.
  - apply timer_resume_guard.
  - apply timer_restart_guard.
Qed.

Lemma timer_guards_reject_witness :
  timer.start (PyInt 10) running_timer
    = (Raise (InvalidStateError "start() is not valid from running state"), running_timer) /\
  timer.resume running_timer
    = (Raise (InvalidStateError "resume() is not valid from running state"), running_timer) /\
  timer.pause (mkProc timer.__init__ (at_reading 0))
    = (Raise (InvalidStateError "pause() is not valid from idle state"),
       mkProc timer.__init__ (at_reading 0)) /\
  timer.restart (mkProc timer.__init__ (at_reading 0))
    = (Raise (InvalidStateError "restart() is not valid from idle state"),
       mkProc timer.__init__ (at_reading 0)).
Proof.
  destruct (timer_guards_reject running_timer) as (H1 & _ & H3 & _).
  destruct (timer_guards_reject (mkProc timer.__init__ (at_reading 0)))
    as (_ & H2 & _ & H4).
  split; [apply (H1 10%Z); [lia | reflexivity] |].
  split; [apply H3; reflexivity |].
  split; [apply H2; reflexivity | apply H4; reflexivity].
Defined.


